(** * parsons.utilities.dbt: the command runner and the result wrapper

    A shallow embedding of [parsons/utilities/dbt/dbt.py] and
    [parsons/utilities/dbt/models.py].

    - Python strings are [string]; a [Path] is kept as the text [str(path)]
      gives.
    - Python numbers that are only added and divided (byte counts, slot
      milliseconds) are exact rationals [Qc]: integers and floats embed into
      them, the rounding of a float quotient is not part of the model.
    - A raised exception is a value of the error monad [Result]; the runner of
      dbt is a state transformer on an abstract world. *)

From Stdlib Require Import ZArith QArith Qcanon String Ascii List DecimalString.
From stdpp Require Import base gmap strings list.

Open Scope string_scope.

(** ** Exceptions, warnings and the error monad *)

(** An exception object: its class and its message. *)
Record PyException := mkException {
  exc_class : string;
  exc_message : string
}.

Record PyWarning := mkWarning {
  warn_category : string;
  warn_message : string
}.

Inductive Result (A : Type) : Type :=
| Ok (a : A)
| Raise (e : PyException).
Arguments Ok {A} a.
Arguments Raise {A} e.

#[global] Instance Result_ret : MRet Result := fun A a => Ok a.
#[global] Instance Result_bind : MBind Result := fun A B f r =>
  match r with
  | Ok a => f a
  | Raise e => Raise e
  end.

(** ** Python strings *)

Module PyStr.

(** [s[n:]] *)
Fixpoint slice_from (n : nat) (s : string) : string :=
  match n, s with
  | O, _ => s
  | S _, EmptyString => EmptyString
  | S n', String _ s' => slice_from n' s'
  end.

(** [s.startswith(p)] *)
Definition startswith (p s : string) : bool := String.prefix p s.

(** [s.split(sep)] for a separator of one character: the string is cut at
    every occurrence of [sep]; two separators in a row, or one at either
    end, give an empty piece, and the empty string gives one empty piece. *)
Fixpoint split (sep : ascii) (s : string) : list string :=
  match s with
  | EmptyString => [EmptyString]
  | String c s' =>
      if Ascii.eqb c sep then EmptyString :: split sep s'
      else match split sep s' with
           | [] => [String c EmptyString]
           | t :: ts => String c t :: ts
           end
  end.

(** [sep.join(l)] *)
Definition join (sep : ascii) (l : list string) : string :=
  String.concat (String sep EmptyString) l.

(** [c in s] *)
Fixpoint contains (c : ascii) (s : string) : bool :=
  match s with
  | EmptyString => false
  | String d s' => Ascii.eqb d c || contains c s'
  end.

(** [c.isspace()] on ASCII: space, tab, line feed, vertical tab, form feed,
    carriage return and the four separators 0x1c to 0x1f. *)
Definition isspace (c : ascii) : bool :=
  let n := nat_of_ascii c in
  (n =? 32)%nat || ((9 <=? n)%nat && (n <=? 13)%nat)
  || ((28 <=? n)%nat && (n <=? 31)%nat).

(** [str(z)] of an integer *)
Definition of_Z (z : Z) : string := NilZero.string_of_int (Z.to_int z).

End PyStr.

(** The tokens a text is made of when it is read as words separated by
    whitespace, which is what [s.split()] without a separator gives: runs of
    whitespace separate, and no token is empty.  This follows the wording
    of the specification; the runner itself uses [PyStr.split]. *)
Fixpoint whitespace_tokens_aux (cur : string) (s : string) : list string :=
  let flush := match cur with EmptyString => [] | _ => [cur] end in
  match s with
  | EmptyString => flush
  | String c s' =>
      if PyStr.isspace c
      then (flush ++ whitespace_tokens_aux EmptyString s')%list
      else whitespace_tokens_aux (cur +:+ String c EmptyString) s'
  end.

Definition whitespace_tokens (s : string) : list string :=
  whitespace_tokens_aux EmptyString s.

(** ** The objects dbt hands back *)

(** Modelled from the spec: the status enumeration of dbt ([NodeStatus]),
    whose declaration is in dbt-core.  The specification lists
    Success/Error/Fail/Skipped/Warn/Pass. *)
Inductive NodeStatus := Success | Error | Fail | Skipped | Warn | Pass.

(** Modelled from the spec: the resource types of dbt ([NodeType]):
    Model, Test, and the others, kept by name. *)
Inductive NodeType := Model | Test | OtherNodeType (type_name : string).

#[global] Instance NodeStatus_eq_dec : EqDecision NodeStatus.
Proof. solve_decision. Defined.

#[global] Instance NodeType_eq_dec : EqDecision NodeType.
Proof. solve_decision. Defined.

Definition NodeStatus_to_nat (s : NodeStatus) : nat :=
  match s with
  | Success => 0 | Error => 1 | Fail => 2 | Skipped => 3 | Warn => 4 | Pass => 5
  end.

Definition NodeStatus_of_nat (n : nat) : NodeStatus :=
  match n with
  | 0 => Success | 1 => Error | 2 => Fail | 3 => Skipped | 4 => Warn | _ => Pass
  end.

#[global] Instance NodeStatus_countable : Countable NodeStatus.
Proof.
  apply (inj_countable' NodeStatus_to_nat NodeStatus_of_nat).
  intros []; reflexivity.
Defined.

(** The statuses are string enumerations: a member is equal to, and prints
    as, its value. *)
Definition NodeStatus_value (s : NodeStatus) : string :=
  match s with
  | Success => "success"
  | Error => "error"
  | Fail => "fail"
  | Skipped => "skipped"
  | Warn => "warn"
  | Pass => "pass"
  end.

(** A plain attribute value.  Floats, time stamps, dictionaries and other
    objects are kept by the text [str] gives for them. *)
Inductive Atom :=
| ANone
| ABool (b : bool)
| AInt (z : Z)
| AStr (s : string)
| AOpaque (rendering : string).

Abbreviation AttrMap := (gmap string Atom).

(** The node descriptor of an outcome.  [resource_type] is [None] when the
    descriptor has no such attribute. *)
Record Node := mkNode {
  name : string;
  resource_type : option NodeType
}.

(** One entry of [results].  [is_NodeResult] is the answer of
    [isinstance(result, NodeResult)]; [attrs] holds the attributes the
    wrapper never reads itself (message, failures, thread_id, ...). *)
Record BaseResult := mkResult {
  is_NodeResult : bool;
  status : NodeStatus;
  node : Node;
  adapter_response : gmap string Qc;
  attrs : AttrMap
}.

(** The [metadata] attribute of an outcome object: dbt's
    [RunExecutionResult] has none of its own, callers attach one. *)
Inductive MetadataAttr :=
| MetadataMissing
| MetadataNone
| MetadataObject (fields : AttrMap).

(** The outcome object of one command.  [extra] holds every attribute
    besides [results] and [metadata] (elapsed_time, args, generated_at and
    whatever else was set on the object). *)
Record RunExecutionResult := mkRunExecutionResult {
  results : list BaseResult;
  metadata : MetadataAttr;
  extra : AttrMap
}.

(** The properties the class [Manifest] defines. *)
Inductive ManifestProperty :=
| dbt_manifest_property
| overall_status_property
| warnings_property
| errors_property
| fails_property
| skips_property
| summary_property
| total_gb_processed_property
| total_slot_hours_property.

(** What the search of the class [Manifest] and of its base [object] finds
    for a name: a property or a function of the class body, or one of the
    attributes every object has. *)
Inductive ClassAttribute :=
| ClassProperty (p : ManifestProperty)
| ClassFunction (name : string)
| ObjectAttribute (name : string).

(** What an attribute lookup can give back.  A name that the class
    defines resolves to that attribute of the class. *)
Inductive Value :=
| VAtom (a : Atom)
| VResults (l : list BaseResult)
| VMetadata (fields : AttrMap)
| VOutcome (r : RunExecutionResult)
| VClassAttribute (a : ClassAttribute).

(** [str(x)].  The texts of a node descriptor and of a dictionary are made
    by dbt and by the interpreter. *)
Class Str (A : Type) := str : A -> string.

(** [bool(x)], the truth value a condition takes an object for. *)
Class Truthy (A : Type) := truthy : A -> bool.

#[global] Instance Str_NodeStatus : Str NodeStatus := NodeStatus_value.

#[global] Instance Str_Atom : Str Atom := fun a =>
  match a with
  | ANone => "None"
  | ABool true => "True"
  | ABool false => "False"
  | AInt z => PyStr.of_Z z
  | AStr s => s
  | AOpaque r => r
  end.

#[global] Instance Truthy_list {A} : Truthy (list A) := fun l =>
  match l with [] => false | _ :: _ => true end.

#[global] Instance Truthy_option {A} `{Truthy A} : Truthy (option A) := fun o =>
  match o with None => false | Some a => truthy a end.

(** Exception objects and paths define neither [__bool__] nor [__len__]:
    they are always true. *)
#[global] Instance Truthy_PyException : Truthy PyException := fun _ => true.

(** The result of [dbtRunner.invoke]. *)
Record dbtRunnerResult := mkRunnerResult {
  exception : option PyException;
  result : option RunExecutionResult
}.

(** A [pathlib.Path], kept as the text [str(path)] gives.  A path is always
    true, also the path of the empty text. *)
Record Path := mkPath { path_text : string }.

#[global] Instance Str_Path : Str Path := path_text.
#[global] Instance Truthy_Path : Truthy Path := fun _ => true.

(** ** models.py: the result wrapper *)

(** The instance attributes of a [Manifest]; after [__init__] has returned
    the outcome object is never [None]. *)
Record Manifest := mkManifest {
  command : string;
  run_execution_result : RunExecutionResult
}.

Definition DeprecationWarning_dbt_manifest : PyWarning :=
  mkWarning "DeprecationWarning"
    "dbt_manifest keyword is deprecated, use run_execution_result instead.".

Definition missing_run_execution_result : PyException :=
  mkException "Exception" "missing run_execution_result".

(** [AttributeError(f"'{cls}' object has no attribute '{key}'")] *)
Definition AttributeError (cls key : string) : PyException :=
  mkException "AttributeError"
    ("'" +:+ cls +:+ "' object has no attribute '" +:+ key +:+ "'").

Definition TypeError_not_iterable : PyException :=
  mkException "TypeError" "object is not iterable".

(** [Manifest.__init__]: the warnings it emits, and the instance or the
    exception it raises. *)
Definition Manifest__init__ (command : string)
    (run_execution_result dbt_manifest : option RunExecutionResult)
    : list PyWarning * Result Manifest :=
  let '(self_run_execution_result, emitted) :=
    match run_execution_result, dbt_manifest with
    | None, Some d => (Some d, [DeprecationWarning_dbt_manifest])
    | _, _ => (run_execution_result, [])
    end in
  match self_run_execution_result with
  | None => (emitted, Raise missing_run_execution_result)
  | Some r => (emitted, Ok (mkManifest command r))
  end.

Definition DeprecationWarning_dbt_manifest_attribute : PyWarning :=
  mkWarning "DeprecationWarning"
    "dbt_manifest attribute is deprecated, use run_execution_result instead.".

(** The property [Manifest.dbt_manifest]: the warning it emits and the
    object it returns. *)
Definition Manifest_dbt_manifest (self : Manifest)
    : list PyWarning * RunExecutionResult :=
  ([DeprecationWarning_dbt_manifest_attribute], run_execution_result self).

(** [getattr(res, key)] on the outcome object; [None] when the object has
    no such attribute. *)
Definition RunExecutionResult_getattr (res : RunExecutionResult) (key : string)
    : option Value :=
  if decide (key = "results") then Some (VResults (results res))
  else if decide (key = "metadata") then
    match metadata res with
    | MetadataMissing => None
    | MetadataNone => Some (VAtom ANone)
    | MetadataObject f => Some (VMetadata f)
    end
  else VAtom <$> extra res !! key.

(** [getattr(res, "metadata", None)] *)
Definition metadata_or_None (res : RunExecutionResult) : option AttrMap :=
  match metadata res with
  | MetadataObject f => Some f
  | MetadataNone | MetadataMissing => None
  end.

(** [Manifest.__getattr__], which Python calls when the ordinary lookup on
    the wrapper has found nothing. *)
Definition Manifest__getattr__ (self : Manifest) (key : string)
    : Result Value :=
  let res := run_execution_result self in
  let metadata := metadata_or_None res in
  match metadata ≫= (.!! key) with
  | Some a => Ok (VAtom a)
  | None =>
      match RunExecutionResult_getattr res key with
      | Some v => Ok v
      | None => Raise (AttributeError "Manifest" key)
      end
  end.

(** The instance dictionary of a wrapper. *)
Definition Manifest__dict__ (self : Manifest) : gmap string Value :=
  <["command" := VAtom (AStr (command self))]>
    (<["run_execution_result" := VOutcome (run_execution_result self)]> ∅).

(** The properties of the class body, by name. *)
Definition Manifest_property_named (key : string) : option ManifestProperty :=
  if decide (key = "dbt_manifest") then Some dbt_manifest_property
  else if decide (key = "overall_status") then Some overall_status_property
  else if decide (key = "warnings") then Some warnings_property
  else if decide (key = "errors") then Some errors_property
  else if decide (key = "fails") then Some fails_property
  else if decide (key = "skips") then Some skips_property
  else if decide (key = "summary") then Some summary_property
  else if decide (key = "total_gb_processed")
       then Some total_gb_processed_property
  else if decide (key = "total_slot_hours") then Some total_slot_hours_property
  else None.

(** The functions of the class body. *)
Definition Manifest_functions : list string :=
  ["__init__"; "__getattr__"; "__dir__"; "filter_results"].

(** Modelled from the language, not from the repository: the attributes
    an instance of a class without bases has from [object] and from the
    class statement (CPython 3.11). *)
Definition object_attributes : list string :=
  ["__class__"; "__delattr__"; "__dict__"; "__dir__"; "__doc__"; "__eq__";
   "__format__"; "__ge__"; "__getattribute__"; "__getstate__"; "__gt__";
   "__hash__"; "__init__"; "__init_subclass__"; "__le__"; "__lt__";
   "__module__"; "__ne__"; "__new__"; "__reduce__"; "__reduce_ex__";
   "__repr__"; "__setattr__"; "__sizeof__"; "__str__"; "__subclasshook__";
   "__weakref__"].

Definition Manifest_property_names : list string :=
  ["dbt_manifest"; "overall_status"; "warnings"; "errors"; "fails"; "skips";
   "summary"; "total_gb_processed"; "total_slot_hours"].

(** The search of a name in the class and then in [object]. *)
Definition Manifest_class_lookup (key : string) : option ClassAttribute :=
  match Manifest_property_named key with
  | Some p => Some (ClassProperty p)
  | None =>
      if bool_decide (key ∈ Manifest_functions) then Some (ClassFunction key)
      else if bool_decide (key ∈ object_attributes)
           then Some (ObjectAttribute key)
      else None
  end.

(** A class attribute that goes before the instance dictionary: a
    property, and the slots [__class__], [__dict__] and [__weakref__]. *)
Definition is_data_descriptor (a : ClassAttribute) : bool :=
  match a with
  | ClassProperty _ => true
  | ClassFunction _ => false
  | ObjectAttribute name =>
      bool_decide (name ∈ ["__class__"; "__dict__"; "__weakref__"])
  end.

(** [self.key], up to the call of a property's getter.  The class is
    searched first: a data descriptor found there wins; otherwise the
    instance dictionary is read; otherwise what the class has is taken;
    and when the name is nowhere, [__getattr__] is called.  For a name the
    class defines the result is that attribute of the class:
    [Manifest_attribute] below runs the getter of a property. *)
Definition Manifest_getattr (self : Manifest) (key : string) : Result Value :=
  match Manifest_class_lookup key with
  | Some a =>
      if is_data_descriptor a then Ok (VClassAttribute a)
      else match Manifest__dict__ self !! key with
           | Some v => Ok v
           | None => Ok (VClassAttribute a)
           end
  | None =>
      match Manifest__dict__ self !! key with
      | Some v => Ok v
      | None => Manifest__getattr__ self key
      end
  end.

(** [self.results], as a list to iterate over.  The name is resolved like
    any other: a metadata object that has an attribute [results] of its own
    hides the list of the outcome object; iterating over such a value is
    not modelled and is reported as a TypeError. *)
Definition Manifest_results (self : Manifest) : Result (list BaseResult) :=
  v ← Manifest_getattr self "results";
  match v with
  | VResults l => Ok l
  | _ => Raise TypeError_not_iterable
  end.

(** The value of an attribute of one entry of [results]. *)
Inductive FieldValue :=
| FStatus (s : NodeStatus)
| FNode (n : Node)
| FDict (d : gmap string Qc)
| FAtom (a : Atom).

Definition BaseResult_getattr (r : BaseResult) (key : string)
    : option FieldValue :=
  if decide (key = "status") then Some (FStatus (status r))
  else if decide (key = "node") then Some (FNode (node r))
  else if decide (key = "adapter_response")
       then Some (FDict (adapter_response r))
  else FAtom <$> attrs r !! key.

(** [collections.Counter(l)] and [counter.get(k, 0)] *)
Definition Counter {K} `{Countable K} (l : list K) : gmap K nat :=
  foldl (fun c k => <[k := S (default 0 (c !! k))]> c) ∅ l.

Definition Counter_get {K} `{Countable K} (c : gmap K nat) (k : K) : nat :=
  default 0 (c !! k).

(** [sum(l)] *)
Definition py_sum (l : list Qc) : Qc := foldl Qcplus (Q2Qc 0) l.

(** A monadic filter: the test of an element may raise. *)
Fixpoint filter_raising {A} (p : A -> Result bool) (l : list A)
    : Result (list A) :=
  match l with
  | [] => Ok []
  | x :: xs =>
      b ← p x;
      ys ← filter_raising p xs;
      Ok (if b : bool then x :: ys else ys)
  end.

(** The value of an attribute of a wrapper: what the lookup finds as it
    is, the status, the counter or the number a property computes, a
    method bound to the wrapper, or an attribute every object has, kept
    by name. *)
Inductive Attribute :=
| AttrValue (v : Value)
| AttrStatus (s : NodeStatus)
| AttrCounter (c : gmap NodeStatus nat)
| AttrNumber (q : Qc)
| BoundMethod (name : string)
| InheritedAttribute (name : string).

Section ManifestViews.

Context `{Str Node} `{Str (gmap string Qc)}.

#[global] Instance Str_FieldValue : Str FieldValue := fun v =>
  match v with
  | FStatus s => str s
  | FNode n => str n
  | FDict d => str d
  | FAtom a => str a
  end.

(** [all(str(getattr(result, key)) == value for key, value in kwargs.items())];
    the first constraint that fails ends the evaluation. *)
Fixpoint all_constraints (r : BaseResult) (kwargs : list (string * string))
    : Result bool :=
  match kwargs with
  | [] => Ok true
  | (key, value) :: rest =>
      match BaseResult_getattr r key with
      | None => Raise (AttributeError "NodeResult" key)
      | Some v =>
          if String.eqb (str v) value then all_constraints r rest
          else Ok false
      end
  end.

Definition filter_results (self : Manifest) (kwargs : list (string * string))
    : Result (list BaseResult) :=
  rs ← Manifest_results self;
  filter_raising
    (fun r => if is_NodeResult r then all_constraints r kwargs
              else Ok false) rs.

Definition warnings (self : Manifest) : Result (list BaseResult) :=
  filter_results self [("status", NodeStatus_value Warn)].

Definition errors (self : Manifest) : Result (list BaseResult) :=
  filter_results self [("status", NodeStatus_value Error)].

Definition fails (self : Manifest) : Result (list BaseResult) :=
  filter_results self [("status", NodeStatus_value Fail)].

Definition skips (self : Manifest) : Result (list BaseResult) :=
  rs ← filter_results self [("status", NodeStatus_value Skipped)];
  Ok (filter (fun r => resource_type (node r) = Some Model) rs).

Definition summary (self : Manifest) : Result (gmap NodeStatus nat) :=
  rs ← Manifest_results self;
  Ok (Counter (map status rs)).

(** [any(self.summary.get(k, 0) > 0 for k in keys)] *)
Fixpoint any_recorded (self : Manifest) (keys : list NodeStatus)
    : Result bool :=
  match keys with
  | [] => Ok false
  | k :: ks =>
      c ← summary self;
      if (0 <? Counter_get (c : gmap NodeStatus nat) k)%nat then Ok true
      else any_recorded self ks
  end.

Definition overall_status (self : Manifest) : Result NodeStatus :=
  es ← errors self;
  errors_or_fails ← (if truthy (es : list BaseResult) then Ok true
                     else fs ← fails self;
                          Ok (truthy (fs : list BaseResult)));
  if errors_or_fails : bool then Ok Error
  else
    ws ← warnings self;
    if truthy (ws : list BaseResult) then Ok Warn
    else
      let success_keys := [Success; Pass] in
      has_success ← any_recorded self success_keys;
      ss ← skips self;
      if truthy (ss : list BaseResult) && negb has_success then Ok Skipped
      else Ok Success.

Definition total_gb_processed (self : Manifest) : Result Qc :=
  rs ← Manifest_results self;
  Ok (py_sum (map (fun node =>
                     default (Q2Qc 0)
                       (adapter_response node !! "bytes_processed"))
                  rs)
      / Q2Qc 1000000000)%Qc.

Definition total_slot_hours (self : Manifest) : Result Qc :=
  rs ← Manifest_results self;
  Ok (py_sum (map (fun node =>
                     default (Q2Qc 0) (adapter_response node !! "slot_ms"))
                  rs)
      / Q2Qc 3600000)%Qc.

(** The getter of a property: the warnings it emits and what it returns
    or raises. *)
Definition property_get (p : ManifestProperty) (self : Manifest)
    : list PyWarning * Result Attribute :=
  match p with
  | dbt_manifest_property =>
      let '(emitted, r) := Manifest_dbt_manifest self in
      (emitted, Ok (AttrValue (VOutcome r)))
  | overall_status_property =>
      ([], s ← overall_status self; Ok (AttrStatus s))
  | warnings_property => ([], l ← warnings self; Ok (AttrValue (VResults l)))
  | errors_property => ([], l ← errors self; Ok (AttrValue (VResults l)))
  | fails_property => ([], l ← fails self; Ok (AttrValue (VResults l)))
  | skips_property => ([], l ← skips self; Ok (AttrValue (VResults l)))
  | summary_property => ([], c ← summary self; Ok (AttrCounter c))
  | total_gb_processed_property =>
      ([], q ← total_gb_processed self; Ok (AttrNumber q))
  | total_slot_hours_property =>
      ([], q ← total_slot_hours self; Ok (AttrNumber q))
  end.

(** [self.key] in full: the warnings emitted and the value or the
    exception.  A property found on the class has its getter run; an
    AttributeError that leaves the getter makes Python call [__getattr__]
    with the name, as for a name that was not found.  A function of the
    class comes back bound to the wrapper. *)
Definition Manifest_attribute (self : Manifest) (key : string)
    : list PyWarning * Result Attribute :=
  match Manifest_getattr self key with
  | Ok (VClassAttribute (ClassProperty p)) =>
      let '(emitted, r) := property_get p self in
      match r with
      | Ok a => (emitted, Ok a)
      | Raise e =>
          if String.eqb (exc_class e) "AttributeError"
          then (emitted, v ← Manifest__getattr__ self key; Ok (AttrValue v))
          else (emitted, Raise e)
      end
  | Ok (VClassAttribute (ClassFunction name)) => ([], Ok (BoundMethod name))
  | Ok (VClassAttribute (ObjectAttribute name)) =>
      ([], Ok (InheritedAttribute name))
  | Ok v => ([], Ok (AttrValue v))
  | Raise e => ([], Raise e)
  end.

(** In the words of the specification: an outcome meets a set of
    constraints when, for each of them, the text of the named field is the
    given value. *)
Definition satisfies (r : BaseResult) (kwargs : list (string * string))
    : Prop :=
  Forall (fun kv => str <$> BaseResult_getattr r kv.1 = Some kv.2) kwargs.

#[global] Instance satisfies_dec r kwargs : Decision (satisfies r kwargs).
Proof. unfold satisfies. apply _. Defined.

End ManifestViews.

Definition non_empty {A} (l : list A) : bool :=
  match l with [] => false | _ :: _ => true end.

(** In the words of the specification: the precedence ladder of
    [overall_status]. *)
Definition status_ladder (errors fails warnings skips : list BaseResult)
    (summary : gmap NodeStatus nat) : NodeStatus :=
  if non_empty errors || non_empty fails then Error
  else if non_empty warnings then Warn
  else if non_empty skips
          && (Counter_get summary Success =? 0)%nat
          && (Counter_get summary Pass =? 0)%nat then Skipped
  else Success.

(** The byte count a result reports, 0 when it reports none. *)
Definition bytes_processed (r : BaseResult) : Qc :=
  default (Q2Qc 0) (adapter_response r !! "bytes_processed").

(** The sum of a list of numbers. *)
Fixpoint total (l : list Qc) : Qc :=
  match l with
  | [] => Q2Qc 0
  | x :: xs => (x + total xs)%Qc
  end.

(** ** dbt.py: the command runner *)

Record dbtRunnerParsons := mkRunner {
  commands : list string;
  dbt_project_directory : Path;
  dbt_profile_directory : option Path
}.

(** [dbtRunnerParsons.__init__]: one command is taken as a list of one. *)
Definition dbtRunnerParsons__init__ (commands : string + list string)
    (dbt_project_directory : Path) (dbt_profile_directory : option Path)
    : dbtRunnerParsons :=
  let commands := match commands with inl c => [c] | inr l => l end in
  mkRunner commands dbt_project_directory dbt_profile_directory.

(** The first lines of [execute_dbt_command]: the command without its
    leading ["dbt "]. *)
Definition strip_dbt (command : string) : string :=
  if PyStr.startswith "dbt " command then PyStr.slice_from 4 command
  else command.

(** The argument list [execute_dbt_command] builds for a command that has
    been stripped already. *)
Definition cli_args (self : dbtRunnerParsons) (command : string)
    : list string :=
  let cli_args := PyStr.split " " command in
  let cli_args :=
    (cli_args ++ ["--project-dir"; str (dbt_project_directory self)])%list in
  match dbt_profile_directory self with
  | Some p =>
      if truthy p then (cli_args ++ ["--profiles-dir"; str p])%list
      else cli_args
  | None => cli_args
  end.

(** What a batch has done so far: the state of everything dbt touches, the
    argument lists the runner was invoked with, oldest first, and the
    warnings emitted. *)
Record ExecState (W : Type) := mkExecState {
  world : W;
  invoked : list (list string);
  warned : list PyWarning
}.
Arguments mkExecState {W} world invoked warned.
Arguments world {W} e.
Arguments invoked {W} e.
Arguments warned {W} e.

(** A computation that reads and changes the state and may raise. *)
Definition Exec (W A : Type) : Type := ExecState W -> Result A * ExecState W.

#[global] Instance Exec_ret {W} : MRet (Exec W) := fun A a s => (Ok a, s).
#[global] Instance Exec_bind {W} : MBind (Exec W) := fun A B f c s =>
  match c s with
  | (Ok a, s') => f a s'
  | (Raise e, s') => (Raise e, s')
  end.

Definition raise {W A} (e : PyException) : Exec W A := fun s => (Raise e, s).

Section Runner.

(** The world dbt acts on, [dbtRunner().invoke], and the truth value of
    an outcome object, which its class in dbt decides. *)
Context {W : Type}.
Context (invoke : list string -> W -> dbtRunnerResult * W).
Context `{Truthy RunExecutionResult}.

Definition dbt_invoke (args : list string) : Exec W dbtRunnerResult :=
  fun s =>
    let '(r, w) := invoke args (world s) in
    (Ok r, mkExecState w (invoked s ++ [args]) (warned s)).

(** The call of the constructor [Manifest(...)] inside a batch. *)
Definition new_Manifest (command : string)
    (run_execution_result dbt_manifest : option RunExecutionResult)
    : Exec W Manifest :=
  fun s =>
    let '(emitted, r) :=
      Manifest__init__ command run_execution_result dbt_manifest in
    (r, mkExecState (world s) (invoked s) (warned s ++ emitted)%list).

Definition execute_dbt_command (self : dbtRunnerParsons) (command : string)
    : Exec W Manifest :=
  let command := strip_dbt command in
  let cli_args := cli_args self command in
  invocation ← dbt_invoke cli_args;
  match exception invocation with
  | Some e =>
      if truthy e then raise e
      else new_Manifest command (result invocation) None
  | None => new_Manifest command (result invocation) None
  end.

(** The loop of [run], with the list built so far. *)
Fixpoint run_loop (self : dbtRunnerParsons) (commands : list string)
    (results : list Manifest) : Exec W (list Manifest) :=
  match commands with
  | [] => mret results
  | command :: rest =>
      wrapper ← execute_dbt_command self command;
      let results :=
        if truthy (run_execution_result wrapper)
        then (results ++ [wrapper])%list
        else results in
      run_loop self rest results
  end.

Definition run (self : dbtRunnerParsons) : Exec W (list Manifest) :=
  run_loop self (commands self) [].

(** The state one invocation for [command] leaves behind. *)
Definition after_invocation (self : dbtRunnerParsons) (command : string)
    (s : ExecState W) : ExecState W :=
  let args := cli_args self (strip_dbt command) in
  mkExecState (invoke args (world s)).2 (invoked s ++ [args]) (warned s).

End Runner.

(** ** dbt.py: the batch with its loggers *)

(** An entry of [loggers]: a logger, or a class of loggers still to be
    instantiated. *)
Inductive LoggerEntry (L C : Type) : Type :=
| LoggerInstance (l : L)
| LoggerClass (cls : C).
Arguments LoggerInstance {L C} l.
Arguments LoggerClass {L C} cls.

Section Loggers.

(** The loggers are code of [parsons.utilities.dbt.logging]: what the call
    of a class without arguments and what [send] do is taken as given.
    [send] is handed the list object of the batch and may change it, so it
    gives back the list as it is after the call. *)
Context {W L C : Type}.
Context (invoke : list string -> W -> dbtRunnerResult * W).
Context `{Truthy RunExecutionResult}.
Context (instantiate : C -> W -> Result L * W).
Context (send : L -> list Manifest -> W -> Result (list Manifest) * W).

(** A call into the loggers: it acts on the world only. *)
Definition on_world {A} (f : W -> Result A * W) : Exec W A :=
  fun s =>
    let '(r, w) := f (world s) in
    (r, mkExecState w (invoked s) (warned s)).

(** The body of the loop over the loggers. *)
Definition dispatch (dbt_logger : LoggerEntry L C)
    (dbt_command_results : list Manifest) : Exec W (list Manifest) :=
  logger ← match dbt_logger with
           | LoggerInstance l => mret l
           | LoggerClass cls => on_world (instantiate cls)
           end;
  on_world (send logger dbt_command_results).

Fixpoint dispatch_all (loggers : list (LoggerEntry L C))
    (dbt_command_results : list Manifest) : Exec W (list Manifest) :=
  match loggers with
  | [] => mret dbt_command_results
  | dbt_logger :: rest =>
      dbt_command_results ← dispatch dbt_logger dbt_command_results;
      dispatch_all rest dbt_command_results
  end.

Definition run_dbt_commands (commands : string + list string)
    (dbt_project_directory : Path) (dbt_profile_directory : option Path)
    (loggers : option (list (LoggerEntry L C))) : Exec W (list Manifest) :=
  let dbt_runner :=
    dbtRunnerParsons__init__ commands dbt_project_directory
      dbt_profile_directory in
  dbt_command_results ← run invoke dbt_runner;
  match loggers with
  | Some l =>
      if truthy l then dispatch_all l dbt_command_results
      else mret dbt_command_results
  | None => mret dbt_command_results
  end.

(** An entry of [loggers] that does not disturb the call: its class can be
    instantiated, and its [send] returns and leaves the list as it is. *)
Definition quiet (dbt_logger : LoggerEntry L C) : Prop :=
  match dbt_logger with
  | LoggerInstance l => forall rs w, (send l rs w).1 = Ok rs
  | LoggerClass cls =>
      forall w, exists l,
        (instantiate cls w).1 = Ok l
        /\ forall rs w', (send l rs w').1 = Ok rs
  end.

End Loggers.

(** ** Sample objects

    The fixtures of the test suite ([conftest.py]) and a runner that plays
    back a script, for the concrete evaluations below. *)

(** dbt's [ExecutionResult.__len__] is the number of its results, so an
    outcome without results is false. *)
Definition Truthy_by_len : Truthy RunExecutionResult :=
  fun r => truthy (results r).

Definition sample_Str_Node : Str Node :=
  fun n => "<ResultNode " +:+ name n +:+ ">".

Definition sample_Str_dict : Str (gmap string Qc) :=
  fun d => "{" +:+ String.concat ", " (map fst (map_to_list d)) +:+ "}".

(** [dbt_node_factory(status, name, resource_type, bytes_processed)] *)
Definition dbt_node_factory (status : NodeStatus) (name : string)
    (resource_type : NodeType) (bytes_processed : Qc) : BaseResult :=
  mkResult true status (mkNode name (Some resource_type))
    (<["bytes_processed" := bytes_processed]>
       (<["slot_ms" := Q2Qc 3600000]> ∅))
    (<["thread_id" := AStr "thread-1"]>
       (<["execution_time" := AOpaque "1.0"]>
          (<["message" := AStr "Success"]>
             (<["failures" := ANone]>
                (<["timing" := AOpaque "[]"]> ∅))))).

(** [dbt_node_factory(status=s)] with the defaults of the fixture. *)
Definition node_with_status (s : NodeStatus) : BaseResult :=
  dbt_node_factory s "my_model" Model (Q2Qc 0).

(** [dbt_node_factory(bytes_processed=b)] *)
Definition node_with_bytes (b : Qc) : BaseResult :=
  dbt_node_factory Success "my_model" Model b.

(** [run_execution_result_factory(results)] *)
Definition run_execution_result_factory (results : list BaseResult)
    : RunExecutionResult :=
  mkRunExecutionResult results
    (MetadataObject
       (<["generated_at" := AOpaque "2024-01-01 00:00:00+00:00"]>
          (<["project_id" := AStr "parsons_project"]> ∅)))
    (<["elapsed_time" := AOpaque "10.0"]> ∅).

(** [Manifest(command="run", run_execution_result=factory(nodes))] *)
Definition manifest_of (nodes : list BaseResult) : Manifest :=
  mkManifest "run" (run_execution_result_factory nodes).

(** A runner that answers from a script: the world is the list of the
    answers still to give. *)
Definition scripted_invoke (args : list string) (w : list dbtRunnerResult)
    : dbtRunnerResult * list dbtRunnerResult :=
  match w with
  | [] => (mkRunnerResult None None, [])
  | r :: w' => (r, w')
  end.

Definition start {W} (w : W) : ExecState W := mkExecState w [] [].

Definition sample_runner (commands : list string) : dbtRunnerParsons :=
  dbtRunnerParsons__init__ (inr commands) (mkPath "/srv/project") None.

Definition DbtInternalException_profile : PyException :=
  mkException "DbtInternalException" "dbt profile not found".

(** The node sets of the test suite. *)
Definition nodes_success_fail : list BaseResult :=
  [node_with_status Success; node_with_status Fail].

(** [test_skips_filters_models_only]: a skipped model, a skipped test and a
    model that succeeded. *)
Definition nodes_skips : list BaseResult :=
  [dbt_node_factory Skipped "m1" Model (Q2Qc 0);
   dbt_node_factory Skipped "t1" Test (Q2Qc 0);
   dbt_node_factory Success "m2" Model (Q2Qc 0)].

Definition nodes_skipped_tests : list BaseResult :=
  [dbt_node_factory Skipped "t1" Test (Q2Qc 0);
   dbt_node_factory Skipped "t2" Test (Q2Qc 0)].

(** What the runner answers: an outcome, nothing at all (as for a command
    that has no result to report), an exception. *)
Definition answer_outcome : dbtRunnerResult :=
  mkRunnerResult None (Some (run_execution_result_factory nodes_success_fail)).

Definition answer_nothing : dbtRunnerResult := mkRunnerResult None None.

Definition answer_exception : dbtRunnerResult :=
  mkRunnerResult (Some DbtInternalException_profile) None.

(** The runner of [test_execute_dbt_command_args_construction]. *)
Definition runner_with_profiles : dbtRunnerParsons :=
  dbtRunnerParsons__init__ (inl "dbt test --select model_a")
    (mkPath "/srv/project") (Some (mkPath "/path/to/profiles")).

(** ** The properties, in the words of the specification *)

(** The trailing arguments of every invocation: the project directory
    always, the profile directory when one was given. *)
Definition context_flags (self : dbtRunnerParsons) : list string :=
  (["--project-dir"; str (dbt_project_directory self)]
   ++ match dbt_profile_directory self with
      | Some p => ["--profiles-dir"; str p]
      | None => []
      end)%list.

(** How often a character occurs in a text. *)
Fixpoint count_char (c : ascii) (s : string) : nat :=
  match s with
  | EmptyString => 0
  | String d s' => (if Ascii.eqb d c then 1 else 0) + count_char c s'
  end.

(** A command given as words: a leading word ["dbt"] that another word
    follows is the marker of the command line and not a word for dbt. *)
Definition without_marker (l : list string) : list string :=
  match l with
  | t :: (_ :: _) as rest => if String.eqb t "dbt" then rest else l
  | _ => l
  end.

(** The slot milliseconds a result reports, 0 when it reports none. *)
Definition slot_ms (r : BaseResult) : Qc :=
  default (Q2Qc 0) (adapter_response r !! "slot_ms").

Section Replay.

Context {W : Type}.
Context (invoke : list string -> W -> dbtRunnerResult * W).
Context `{Truthy RunExecutionResult}.

(** What the runner answers along a batch when every command of it is
    run, and the world the batch leaves behind. *)
Fixpoint answers (self : dbtRunnerParsons) (cmds : list string) (w : W)
    : list dbtRunnerResult :=
  match cmds with
  | [] => []
  | c :: rest =>
      let '(r, w') := invoke (cli_args self (strip_dbt c)) w in
      r :: answers self rest w'
  end.

Fixpoint world_after (self : dbtRunnerParsons) (cmds : list string) (w : W)
    : W :=
  match cmds with
  | [] => w
  | c :: rest =>
      world_after self rest (invoke (cli_args self (strip_dbt c)) w).2
  end.

(** An answer without exception and with an outcome. *)
Definition answered (r : dbtRunnerResult) : Prop :=
  exception r = None /\ is_Some (result r).

(** The wrapper that stays in the list for a command and its answer. *)
Definition wrapper_kept (c : string) (r : dbtRunnerResult) : option Manifest :=
  match result r with
  | Some o => if truthy o then Some (mkManifest (strip_dbt c) o) else None
  | None => None
  end.

Definition wrappers_kept (cmds : list string) (rs : list dbtRunnerResult)
    : list Manifest :=
  omap (fun cr => wrapper_kept cr.1 cr.2) (zip cmds rs).

End Replay.

(** A world for the loggers: the script of the runner and the names of the
    loggers that have sent, oldest first. *)
Definition logging_invoke (args : list string)
    (w : list dbtRunnerResult * list string)
    : dbtRunnerResult * (list dbtRunnerResult * list string) :=
  let '(r, script) := scripted_invoke args w.1 in (r, (script, w.2)).

(** A logger class is instantiated without effect; the logger ["broken"]
    raises, every other one records that it has sent and leaves the list
    as it is. *)
Definition logging_instantiate (cls : string)
    (w : list dbtRunnerResult * list string)
    : Result string * (list dbtRunnerResult * list string) :=
  (Ok cls, w).

Definition logger_failed : PyException :=
  mkException "RuntimeError" "logger failed".

Definition logging_send (logger : string) (results : list Manifest)
    (w : list dbtRunnerResult * list string)
    : Result (list Manifest) * (list dbtRunnerResult * list string) :=
  if String.eqb logger "broken" then (Raise logger_failed, w)
  else (Ok results, (w.1, (w.2 ++ [logger])%list)).

(** ** Strings: cutting and joining *)

Lemma split_not_nil sep s : PyStr.split sep s <> [].
Proof.
  destruct s as [|c s]; simpl; [discriminate|].
  destruct (Ascii.eqb c sep); [discriminate|].
  destruct (PyStr.split sep s); discriminate.
Qed.

Lemma join_cons sep t l :
  l <> [] ->
  PyStr.join sep (t :: l) = t +:+ String sep (PyStr.join sep l).
Proof. destruct l; [congruence | reflexivity]. Qed.

Lemma join_split sep s : PyStr.join sep (PyStr.split sep s) = s.
Proof.
  induction s as [|c s IH]; simpl; [reflexivity|].
  pose proof (split_not_nil sep s) as Hne.
  destruct (Ascii.eqb_spec c sep) as [->|Hc].
  - rewrite join_cons by assumption. simpl. by rewrite IH.
  - destruct (PyStr.split sep s) as [|t ts]; [congruence|].
    destruct ts as [|u ts].
    + unfold PyStr.join in *. simpl in *. congruence.
    + rewrite join_cons by discriminate.
      rewrite join_cons in IH by discriminate.
      rewrite <- IH. reflexivity.
Qed.

Lemma split_no_sep sep s :
  Forall (fun t => PyStr.contains sep t = false) (PyStr.split sep s).
Proof.
  induction s as [|c s IH]; simpl.
  - constructor; [reflexivity | constructor].
  - destruct (Ascii.eqb_spec c sep) as [->|Hc].
    + constructor; [reflexivity | assumption].
    + destruct (PyStr.split sep s) as [|t ts].
      * constructor; [|constructor]. simpl.
        destruct (Ascii.eqb_spec c sep); [congruence | reflexivity].
      * inversion IH; subst. constructor; [|assumption]. simpl.
        destruct (Ascii.eqb_spec c sep); [congruence | assumption].
Qed.

Lemma split_append_sep sep t s :
  PyStr.contains sep t = false ->
  PyStr.split sep (t +:+ String sep s) = t :: PyStr.split sep s.
Proof.
  induction t as [|c t IH]; simpl; intros Hc.
  - by rewrite Ascii.eqb_refl.
  - apply orb_false_iff in Hc as [Hc Ht].
    rewrite Hc, IH by assumption. reflexivity.
Qed.

Lemma split_no_sep_id sep t :
  PyStr.contains sep t = false -> PyStr.split sep t = [t].
Proof.
  induction t as [|c t IH]; simpl; intros Hc; [reflexivity|].
  apply orb_false_iff in Hc as [Hc Ht].
  rewrite Hc, IH by assumption. reflexivity.
Qed.

(** The pieces are the only list of separator-free texts that joins back
    to the text. *)
Lemma split_join sep l :
  l <> [] ->
  Forall (fun t => PyStr.contains sep t = false) l ->
  PyStr.split sep (PyStr.join sep l) = l.
Proof.
  induction l as [|t l IH]; [congruence|].
  intros _ Hall. inversion Hall as [|? ? Ht Hl]; subst.
  destruct l as [|u l].
  - simpl. by apply split_no_sep_id.
  - rewrite join_cons by discriminate.
    rewrite split_append_sep by assumption.
    rewrite IH; [reflexivity | discriminate | assumption].
Qed.

Lemma startswith_slice p s :
  PyStr.startswith p s = true -> s = p +:+ PyStr.slice_from (String.length p) s.
Proof.
  unfold PyStr.startswith. revert s.
  induction p as [|c p IH]; intros s Hp; [reflexivity|].
  destruct s as [|d s]; simpl in Hp; [discriminate|].
  destruct (ascii_dec c d) as [->|]; [|discriminate].
  change (String d s = String d (p +:+ PyStr.slice_from (String.length p) s)).
  f_equal. by apply IH.
Qed.

(** ** The argument list of an invocation *)

Lemma strip_dbt_cases command :
  (command = "dbt " +:+ strip_dbt command)
  \/ (PyStr.startswith "dbt " command = false /\ strip_dbt command = command).
Proof.
  unfold strip_dbt.
  destruct (PyStr.startswith "dbt " command) eqn:E; [left | right; done].
  by apply (startswith_slice "dbt ").
Qed.

Lemma cli_args_tokens_flags self command :
  cli_args self command = (PyStr.split " " command ++ context_flags self)%list.
Proof.
  unfold cli_args, context_flags.
  destruct (dbt_profile_directory self) as [p|]; simpl.
  - by rewrite <- app_assoc.
  - reflexivity.
Qed.

(** C4, as stated, fails: with two spaces in a row the runner is handed an
    empty token, which is no whitespace-separated token of the command. *)
Lemma cli_args_double_space :
  let self := sample_runner [] in
  let command := strip_dbt "dbt run  --full-refresh" in
  cli_args self command
    = ["run"; ""; "--full-refresh"; "--project-dir"; "/srv/project"]
  /\ whitespace_tokens command = ["run"; "--full-refresh"]
  /\ cli_args self command
     <> (whitespace_tokens command ++ context_flags self)%list.
Proof.
  repeat split; try reflexivity.
  vm_compute. discriminate.
Qed.

(** C4 (amended): the command loses one leading ["dbt "] when it has one;
    the rest is cut at every single space character, so its pieces are the
    one list of space-free texts that joins back to it with single spaces
    (two spaces in a row give an empty token, other whitespace stays
    inside a token); the tokens are followed by [--project-dir] and the
    project directory always, then by [--profiles-dir] and the profile
    directory when one was supplied.  ["dbt run"] and ["run"] both give
    ["run"] as first token. *)
Theorem cli_args_spec :
  forall (self : dbtRunnerParsons) (command : string),
    let rest := strip_dbt command in
    let tokens := PyStr.split " " rest in
    (command = "dbt " +:+ rest
     \/ (PyStr.startswith "dbt " command = false /\ rest = command))
    /\ cli_args self rest
       = (tokens
          ++ ["--project-dir"; str (dbt_project_directory self)]
          ++ match dbt_profile_directory self with
             | Some p => ["--profiles-dir"; str p]
             | None => []
             end)%list
    /\ tokens <> []
    /\ Forall (fun t => PyStr.contains " " t = false) tokens
    /\ PyStr.join " " tokens = rest
    /\ (forall l : list string,
           l <> [] ->
           Forall (fun t => PyStr.contains " " t = false) l ->
           PyStr.join " " l = rest -> l = tokens)
    /\ head (cli_args self (strip_dbt "dbt run")) = Some "run"
    /\ head (cli_args self (strip_dbt "run")) = Some "run".
Proof.
  intros self command rest tokens.
  split; [apply strip_dbt_cases|].
  split; [apply cli_args_tokens_flags|].
  split; [apply split_not_nil|].
  split; [apply split_no_sep|].
  split; [apply join_split|].
  split.
  - intros l Hne Hall Hjoin. subst tokens. rewrite <- Hjoin.
    symmetry. by apply split_join.
  - rewrite !cli_args_tokens_flags. split; reflexivity.
Qed.

(** ** The error monad *)

Lemma bind_Ok {A B} (f : A -> Result B) (a : A) : Ok a ≫= f = f a.
Proof. reflexivity. Qed.

Lemma bind_Ok_inv {A B} (f : A -> Result B) (r : Result A) (b : B) :
  r ≫= f = Ok b -> exists a, r = Ok a /\ f a = Ok b.
Proof. destruct r as [a|e]; [eauto | discriminate]. Qed.

Lemma filter_raising_sound {A} (p : A -> Result bool) (P : A -> Prop)
    `{forall x, Decision (P x)} (l l' : list A) :
  (forall x b, x ∈ l -> p x = Ok b -> b = bool_decide (P x)) ->
  filter_raising p l = Ok l' -> l' = filter P l.
Proof.
  revert l'. induction l as [|x xs IH]; intros l' Hp Hrun; simpl in Hrun.
  - by injection Hrun as <-.
  - apply bind_Ok_inv in Hrun as (b & Hb & Hrun).
    apply bind_Ok_inv in Hrun as (ys & Hys & Hrun).
    injection Hrun as <-.
    apply Hp in Hb; [|left]. subst b.
    rewrite (IH ys); [|intros; apply Hp; [by right | done] | done].
    case_bool_decide;
      [by rewrite filter_cons_True | by rewrite filter_cons_False].
Qed.

Lemma filter_raising_total {A} (p : A -> Result bool) (l : list A) :
  (forall x, x ∈ l -> exists b, p x = Ok b) ->
  exists l', filter_raising p l = Ok l'.
Proof.
  induction l as [|x xs IH]; intros Hp; simpl; [eauto|].
  destruct (Hp x) as [b ->]; [left|].
  destruct IH as [ys ->]; [intros; apply Hp; by right|].
  simpl. eauto.
Qed.

Lemma filter_raising_raise_iff {A} (p : A -> Result bool) (l : list A) :
  (exists e, filter_raising p l = Raise e)
  <-> exists x, x ∈ l /\ exists e, p x = Raise e.
Proof.
  induction l as [|x xs IH]; simpl.
  - split; [by intros [e ?] | intros (x & Hx & _); by apply elem_of_nil in Hx].
  - destruct (p x) as [b|e] eqn:Hpx; simpl.
    + destruct (filter_raising p xs) as [ys|e] eqn:Hxs; simpl.
      * split; [by intros [e ?]|].
        intros (y & [->|Hy]%elem_of_cons & e & Hpy); [congruence|].
        destruct (proj2 IH) as [e' ?]; [eauto | done].
      * split; [|eauto]. intros _.
        destruct (proj1 IH) as (y & Hy & Hpy); [eauto|].
        exists y. split; [by right | done].
    + split; [|eauto]. intros _. exists x. split; [left | eauto].
Qed.

Lemma filter_raising_raise_from {A} (p : A -> Result bool) (l : list A) e :
  filter_raising p l = Raise e -> exists x, x ∈ l /\ p x = Raise e.
Proof.
  induction l as [|x xs IH]; simpl; [discriminate|].
  destruct (p x) as [b|e'] eqn:Hpx; simpl.
  - destruct (filter_raising p xs) as [ys|e'] eqn:Hxs; simpl; [discriminate|].
    intros [= ->]. destruct IH as (y & Hy & Hpy); [done|].
    exists y. split; [by right | done].
  - intros [= ->]. exists x. split; [left | done].
Qed.

Lemma filter_raising_Ok_all {A} (p : A -> Result bool) (l l' : list A) :
  filter_raising p l = Ok l' -> forall x, x ∈ l -> exists b, p x = Ok b.
Proof.
  revert l'. induction l as [|x xs IH]; intros l' Hrun y Hy;
    [by apply elem_of_nil in Hy|].
  simpl in Hrun.
  apply bind_Ok_inv in Hrun as (b & Hb & Hrun).
  apply bind_Ok_inv in Hrun as (ys & Hys & _).
  apply elem_of_cons in Hy as [->|Hy]; [eauto|]. by eapply IH.
Qed.

(** ** The counter *)

Lemma Counter_get_foldl (l : list NodeStatus) (c : gmap NodeStatus nat) k :
  Counter_get (foldl (fun c k => <[k := S (default 0 (c !! k))]> c) c l) k
  = Counter_get c k + length (filter (fun x => x = k) l).
Proof.
  revert c. induction l as [|x xs IH]; intros c; simpl; [lia|].
  rewrite IH, filter_cons. unfold Counter_get at 1.
  destruct (decide (x = k)) as [->|Hne].
  - rewrite lookup_insert_eq. unfold Counter_get. simpl. lia.
  - rewrite lookup_insert_ne by done. unfold Counter_get. lia.
Qed.

(** [summary] counts: the count of a status is the number of results that
    have it. *)
Lemma Counter_get_count (l : list NodeStatus) k :
  Counter_get (Counter l) k = length (filter (fun x => x = k) l).
Proof.
  unfold Counter. rewrite Counter_get_foldl.
  unfold Counter_get. by rewrite lookup_empty.
Qed.

Lemma total_py_sum_from (l : list Qc) (a : Qc) :
  foldl Qcplus a l = (a + total l)%Qc.
Proof.
  revert a. induction l as [|x xs IH]; intros a; simpl.
  - by rewrite Qcplus_0_r.
  - by rewrite IH, Qcplus_assoc.
Qed.

Lemma py_sum_total (l : list Qc) : py_sum l = total l.
Proof. unfold py_sum. by rewrite total_py_sum_from, Qcplus_0_l. Qed.

(** ** The wrapper: where [results] comes from *)

Lemma Manifest__dict__lookup self key :
  Manifest__dict__ self !! key
  = if decide (key = "command") then Some (VAtom (AStr (command self)))
    else if decide (key = "run_execution_result")
         then Some (VOutcome (run_execution_result self))
         else None.
Proof.
  unfold Manifest__dict__.
  destruct (decide (key = "command")) as [->|H1].
  - by rewrite lookup_insert_eq.
  - rewrite lookup_insert_ne by done.
    destruct (decide (key = "run_execution_result")) as [->|H2].
    + by rewrite lookup_insert_eq.
    + by rewrite lookup_insert_ne.
Qed.

Lemma Manifest_results_inv self rs :
  Manifest_results self = Ok rs -> rs = results (run_execution_result self).
Proof.
  unfold Manifest_results, Manifest_getattr.
  rewrite Manifest__dict__lookup. simpl.
  unfold Manifest__getattr__.
  destruct (metadata_or_None _ ≫= _); simpl; [discriminate|].
  unfold RunExecutionResult_getattr. simpl. congruence.
Qed.

(** Unless the metadata object has an attribute [results] of its own, the
    wrapper's [results] is the list of the outcome object. *)
Lemma Manifest_results_proxy self :
  metadata_or_None (run_execution_result self) ≫= (.!! "results") = None ->
  Manifest_results self = Ok (results (run_execution_result self)).
Proof.
  intros Hmd. unfold Manifest_results, Manifest_getattr.
  rewrite Manifest__dict__lookup. simpl.
  unfold Manifest__getattr__. by rewrite Hmd.
Qed.

Lemma NodeStatus_value_inj s1 s2 :
  NodeStatus_value s1 = NodeStatus_value s2 -> s1 = s2.
Proof. destruct s1, s2; simpl; intros E; (reflexivity || discriminate E). Qed.

(** ** The wrapper: filtering and the derived views *)

Section ManifestFacts.

Context `{Str Node} `{Str (gmap string Qc)}.

Lemma all_constraints_sound r kwargs b :
  all_constraints r kwargs = Ok b -> b = bool_decide (satisfies r kwargs).
Proof.
  revert b. induction kwargs as [|[key value] rest IH]; intros b Hb;
    simpl in Hb.
  - injection Hb as <-. symmetry. apply bool_decide_eq_true_2. constructor.
  - destruct (BaseResult_getattr r key) as [v|] eqn:Hv; [|discriminate].
    destruct (String.eqb_spec (str v) value) as [Heq|Hne].
    + rewrite (IH b Hb). apply bool_decide_ext.
      unfold satisfies. rewrite Forall_cons. simpl. rewrite Hv. simpl.
      split; [intros ?; split; [by rewrite Heq | done] | by intros [_ ?]].
    + injection Hb as <-. symmetry. apply bool_decide_eq_false_2.
      unfold satisfies. rewrite Forall_cons. simpl. rewrite Hv. simpl.
      intros [[= ?] _]. done.
Qed.

Lemma all_constraints_total r kwargs :
  (forall kv, kv ∈ kwargs -> is_Some (BaseResult_getattr r kv.1)) ->
  exists b, all_constraints r kwargs = Ok b.
Proof.
  induction kwargs as [|[key value] rest IH]; intros Hattr; simpl; [eauto|].
  destruct (Hattr (key, value)) as [v Hv]; [left|]. simpl in Hv. rewrite Hv.
  destruct (String.eqb (str v) value); [|eauto].
  apply IH. intros kv Hkv. apply Hattr. by right.
Qed.

Lemma satisfies_app r kw1 kw2 :
  satisfies r (kw1 ++ kw2) <-> satisfies r kw1 /\ satisfies r kw2.
Proof. unfold satisfies. apply Forall_app. Qed.

Lemma all_constraints_app r kw1 kw2 :
  all_constraints r (kw1 ++ kw2)
  = match all_constraints r kw1 with
    | Ok true => all_constraints r kw2
    | Ok false => Ok false
    | Raise e => Raise e
    end.
Proof.
  induction kw1 as [|[key value] kw1 IH]; simpl; [reflexivity|].
  destruct (BaseResult_getattr r key) as [v|]; [|reflexivity].
  destruct (String.eqb (str v) value); [exact IH | reflexivity].
Qed.

Lemma all_constraints_raise_iff r kwargs :
  (exists e, all_constraints r kwargs = Raise e)
  <-> exists pre key value post,
        kwargs = (pre ++ (key, value) :: post)%list
        /\ satisfies r pre
        /\ BaseResult_getattr r key = None.
Proof.
  induction kwargs as [|[key value] rest IH]; simpl.
  - split; [by intros [e ?]|].
    intros (pre & k & v & post & Hk & _). by destruct pre.
  - destruct (BaseResult_getattr r key) as [fv|] eqn:Hfv.
    + destruct (String.eqb_spec (str fv) value) as [Heq|Hne].
      * subst value. rewrite IH. split.
        -- intros (pre & k & v & post & -> & Hsat & Hk).
           exists ((key, str fv) :: pre), k, v, post.
           split; [reflexivity|]. split; [|done].
           constructor; [|done]. simpl. by rewrite Hfv.
        -- intros (pre & k & v & post & Hk & Hsat & Hnone).
           destruct pre as [|kv pre]; simpl in Hk;
             injection Hk as E1 E2; [congruence|].
           subst. exists pre, k, v, post.
           split; [reflexivity|]. split; [|done].
           by apply Forall_cons in Hsat as [_ ?].
      * split; [by intros [e ?]|].
        intros (pre & k & v & post & Hk & Hsat & Hnone).
        destruct pre as [|kv pre]; simpl in Hk;
          injection Hk as E1 E2; [congruence|].
        subst. apply Forall_cons in Hsat as [Hv _]. simpl in Hv.
        rewrite Hfv in Hv. simpl in Hv. congruence.
    + split; [|eauto]. intros _. exists [], key, value, rest.
      split; [reflexivity|]. split; [constructor | done].
Qed.

Lemma all_constraints_raise_class r kwargs e :
  all_constraints r kwargs = Raise e -> exc_class e = "AttributeError".
Proof.
  induction kwargs as [|[key value] rest IH]; simpl; [discriminate|].
  destruct (BaseResult_getattr r key) as [v|]; [|by intros [= <-]].
  destruct (String.eqb (str v) value); [exact IH | discriminate].
Qed.

(** Whenever filtering returns, it returns the node outcomes that meet
    every constraint. *)
Lemma filter_results_sound self rs kwargs l :
  Manifest_results self = Ok rs ->
  filter_results self kwargs = Ok l ->
  l = filter (fun r => is_NodeResult r = true /\ satisfies r kwargs) rs.
Proof.
  intros Hrs. unfold filter_results. rewrite Hrs. simpl.
  apply filter_raising_sound. intros r b _.
  destruct (is_NodeResult r) eqn:Hnode.
  - intros Hb%all_constraints_sound. subst b. apply bool_decide_ext. tauto.
  - intros [= <-]. symmetry. apply bool_decide_eq_false_2. intros [? _]. done.
Qed.

Lemma filter_results_raise_lacking self rs kwargs :
  Manifest_results self = Ok rs ->
  (exists e, filter_results self kwargs = Raise e)
  <-> exists r pre key value post,
        r ∈ rs /\ is_NodeResult r = true
        /\ kwargs = (pre ++ (key, value) :: post)%list
        /\ satisfies r pre
        /\ BaseResult_getattr r key = None.
Proof.
  intros Hrs. unfold filter_results. rewrite Hrs. simpl.
  rewrite filter_raising_raise_iff. split.
  - intros (r & Hr & Hraise).
    destruct (is_NodeResult r) eqn:Hn; [|by destruct Hraise].
    apply all_constraints_raise_iff
      in Hraise as (pre & key & value & post & ? & ? & ?).
    exists r, pre, key, value, post. done.
  - intros (r & pre & key & value & post & Hr & Hn & Hk & Hsat & Hnone).
    exists r. split; [done|]. rewrite Hn.
    apply all_constraints_raise_iff. eauto 10.
Qed.

Lemma filter_results_raise_class self kwargs e :
  filter_results self kwargs = Raise e -> exc_class e = "AttributeError"
  \/ Manifest_results self = Raise e.
Proof.
  unfold filter_results.
  destruct (Manifest_results self) as [rs|e']; simpl; [|by right].
  intros (r & Hr & Hraise)%filter_raising_raise_from. left.
  destruct (is_NodeResult r); [|discriminate].
  by eapply all_constraints_raise_class.
Qed.

Lemma satisfies_status r s :
  satisfies r [("status", NodeStatus_value s)] <-> status r = s.
Proof.
  unfold satisfies. rewrite Forall_singleton. simpl. split.
  - intros [= Hs]. by apply NodeStatus_value_inj.
  - by intros ->.
Qed.

Lemma filter_results_status self rs s :
  Manifest_results self = Ok rs ->
  filter_results self [("status", NodeStatus_value s)]
  = Ok (filter (fun r => is_NodeResult r = true /\ status r = s) rs).
Proof.
  intros Hrs.
  destruct (filter_raising_total
              (fun r => if is_NodeResult r
                        then all_constraints r [("status", NodeStatus_value s)]
                        else Ok false) rs) as [l Hl].
  { intros r _. destruct (is_NodeResult r); [|eauto].
    apply all_constraints_total. intros kv ->%list_elem_of_singleton.
    simpl. eauto. }
  assert (Hrun : filter_results self [("status", NodeStatus_value s)] = Ok l)
    by (unfold filter_results; by rewrite Hrs).
  rewrite Hrun. f_equal.
  rewrite (filter_results_sound _ _ _ _ Hrs Hrun).
  apply list_filter_iff. intros r. by rewrite satisfies_status.
Qed.

Lemma warnings_eq self rs :
  Manifest_results self = Ok rs ->
  warnings self
  = Ok (filter (fun r => is_NodeResult r = true /\ status r = Warn) rs).
Proof. apply filter_results_status. Qed.

Lemma errors_eq self rs :
  Manifest_results self = Ok rs ->
  errors self
  = Ok (filter (fun r => is_NodeResult r = true /\ status r = Error) rs).
Proof. apply filter_results_status. Qed.

Lemma fails_eq self rs :
  Manifest_results self = Ok rs ->
  fails self
  = Ok (filter (fun r => is_NodeResult r = true /\ status r = Fail) rs).
Proof. apply filter_results_status. Qed.

Lemma skips_eq self rs :
  Manifest_results self = Ok rs ->
  skips self
  = Ok (filter (fun r => resource_type (node r) = Some Model
                         /\ is_NodeResult r = true /\ status r = Skipped) rs).
Proof.
  intros Hrs. unfold skips. rewrite (filter_results_status _ _ _ Hrs). simpl.
  by rewrite list_filter_filter.
Qed.

Lemma summary_eq self rs :
  Manifest_results self = Ok rs ->
  summary self = Ok (Counter (map status rs)).
Proof. intros Hrs. unfold summary. by rewrite Hrs. Qed.

Lemma any_recorded_eq self rs keys :
  Manifest_results self = Ok rs ->
  any_recorded self keys
  = Ok (existsb
          (fun k => (0 <? Counter_get (Counter (map status rs)) k)%nat) keys).
Proof.
  intros Hrs. induction keys as [|k ks IH]; simpl; [reflexivity|].
  rewrite (summary_eq _ _ Hrs). simpl.
  destruct (0 <? _)%nat; [reflexivity | exact IH].
Qed.

Lemma truthy_non_empty {A} (l : list A) : truthy l = non_empty l.
Proof. by destruct l. Qed.

End ManifestFacts.

(** C7, as stated, fails: a constraint that names a field the node
    outcomes do not have makes filtering raise an AttributeError; it does
    not return the outcomes whose field has the value, of which there are
    none. *)
Lemma filter_results_missing_field :
  Manifest_results (manifest_of nodes_success_fail) = Ok nodes_success_fail
  /\ (exists e,
         @filter_results sample_Str_Node sample_Str_dict
           (manifest_of nodes_success_fail) [("owner", "data")]
         = Raise e
         /\ exc_class e = "AttributeError")
  /\ (forall l,
         @filter_results sample_Str_Node sample_Str_dict
           (manifest_of nodes_success_fail) [("owner", "data")]
         <> Ok l).
Proof.
  assert (E : @filter_results sample_Str_Node sample_Str_dict
                (manifest_of nodes_success_fail) [("owner", "data")]
              = Raise (AttributeError "NodeResult" "owner"))
    by reflexivity.
  split; [reflexivity|]. split.
  - eexists. split; [exact E | reflexivity].
  - intros l Hl. rewrite E in Hl. discriminate Hl.
Qed.

Section ManifestClaims.

Context `{Str Node} `{Str (gmap string Qc)}.

(** C7 (amended): for constraints that name fields the node outcomes
    have, filtering returns exactly the node outcomes (entries that are
    not node outcomes are left out) for which, for every constraint, the
    text of the named field equals the given value, in the order of the
    underlying results.  In general filtering either returns that list,
    and then no node outcome lacks a field a constraint names while it
    meets the constraints before that one, or it raises an AttributeError,
    and then some node outcome does.  [results] is what the wrapper
    resolves it to. *)
Theorem filter_results_spec :
  forall (self : Manifest) (rs : list BaseResult)
         (kwargs : list (string * string)),
    Manifest_results self = Ok rs ->
    ((forall r kv, r ∈ rs -> is_NodeResult r = true -> kv ∈ kwargs ->
                   is_Some (BaseResult_getattr r kv.1)) ->
     exists l,
       filter_results self kwargs = Ok l
       /\ l = filter (fun r => is_NodeResult r = true /\ satisfies r kwargs) rs
       /\ l `sublist_of` rs
       /\ (forall r,
              r ∈ l <->
              r ∈ rs /\ is_NodeResult r = true
              /\ (forall key value, (key, value) ∈ kwargs ->
                    exists v, BaseResult_getattr r key = Some v
                              /\ str v = value)))
    /\ ((exists l,
            filter_results self kwargs = Ok l
            /\ l = filter (fun r => is_NodeResult r = true
                                    /\ satisfies r kwargs) rs
            /\ ~ exists r pre key value post,
                   r ∈ rs /\ is_NodeResult r = true
                   /\ kwargs = (pre ++ (key, value) :: post)%list
                   /\ satisfies r pre
                   /\ BaseResult_getattr r key = None)
        \/ (exists e,
               filter_results self kwargs = Raise e
               /\ exc_class e = "AttributeError"
               /\ exists r pre key value post,
                    r ∈ rs /\ is_NodeResult r = true
                    /\ kwargs = (pre ++ (key, value) :: post)%list
                    /\ satisfies r pre
                    /\ BaseResult_getattr r key = None)).
Proof.
  intros self rs kwargs Hrs. split.
  - intros Hattr.
    destruct (filter_raising_total
                (fun r => if is_NodeResult r then all_constraints r kwargs
                          else Ok false) rs) as [l Hl].
    { intros r Hr. destruct (is_NodeResult r) eqn:Hnode; [|eauto].
      apply all_constraints_total. intros kv Hkv. by apply (Hattr r). }
    assert (Hrun : filter_results self kwargs = Ok l)
      by (unfold filter_results; by rewrite Hrs).
    pose proof (filter_results_sound _ _ _ _ Hrs Hrun) as El.
    exists l. split; [done|]. split; [done|]. split.
    + rewrite El. apply sublist_filter.
    + intros r. rewrite El, list_elem_of_filter. unfold satisfies.
      rewrite Forall_forall. split.
      * intros [[Hnode Hsat] Hr]. repeat split; [done..|].
        intros key value Hkv. specialize (Hsat _ Hkv). simpl in Hsat.
        destruct (BaseResult_getattr r key) as [v|]; [|discriminate].
        injection Hsat as Hv. eauto.
      * intros (Hr & Hnode & Hsat). repeat split; [done| |done].
        intros [key value] Hkv. destruct (Hsat _ _ Hkv) as (v & Hv & <-).
        simpl. by rewrite Hv.
  - pose proof (filter_results_raise_lacking self rs kwargs Hrs) as Hlack.
    destruct (filter_results self kwargs) as [l|e] eqn:Hrun.
    + left. exists l. split; [done|].
      split; [by apply (filter_results_sound self rs kwargs)|].
      intros [e He]%Hlack. discriminate He.
    + right. exists e. split; [done|]. split; [|apply Hlack; eauto].
      destruct (filter_results_raise_class _ _ _ Hrun) as [?|Hr];
        [done | congruence].
Qed.

(** C8: the skips view holds exactly the node outcomes whose status is
    Skipped and whose node's resource type is Model, in the order of the
    results; a skipped outcome of another resource type, Test among them,
    is never in it. *)
Theorem skips_spec :
  forall (self : Manifest) (rs : list BaseResult),
    Manifest_results self = Ok rs ->
    exists ss,
      skips self = Ok ss
      /\ ss = filter (fun r => is_NodeResult r = true /\ status r = Skipped
                               /\ resource_type (node r) = Some Model) rs
      /\ (forall r,
             r ∈ ss <->
             r ∈ rs /\ is_NodeResult r = true /\ status r = Skipped
             /\ resource_type (node r) = Some Model)
      /\ (forall r, r ∈ ss -> resource_type (node r) <> Some Test).
Proof.
  intros self rs Hrs. eexists. split; [by apply skips_eq|].
  assert (Hmem : forall r,
             r ∈ filter (fun r => resource_type (node r) = Some Model
                                  /\ is_NodeResult r = true
                                  /\ status r = Skipped) rs <->
             r ∈ rs /\ is_NodeResult r = true /\ status r = Skipped
             /\ resource_type (node r) = Some Model)
    by (intros r; rewrite list_elem_of_filter; tauto).
  split; [apply list_filter_iff; tauto|]. split; [exact Hmem|].
  intros r (_ & _ & _ & Hty)%Hmem. congruence.
Qed.

(** The ladder, for a wrapper whose [results] resolves to [rs]. *)
Lemma overall_status_eq self rs :
  Manifest_results self = Ok rs ->
  overall_status self
  = Ok (status_ladder
          (filter (fun r => is_NodeResult r = true /\ status r = Error) rs)
          (filter (fun r => is_NodeResult r = true /\ status r = Fail) rs)
          (filter (fun r => is_NodeResult r = true /\ status r = Warn) rs)
          (filter (fun r => resource_type (node r) = Some Model
                            /\ is_NodeResult r = true /\ status r = Skipped) rs)
          (Counter (map status rs))).
Proof.
  intros Hrs. unfold overall_status, status_ladder.
  rewrite (errors_eq _ _ Hrs), (fails_eq _ _ Hrs), (warnings_eq _ _ Hrs),
    (skips_eq _ _ Hrs), (any_recorded_eq _ _ _ Hrs).
  rewrite <- !truthy_non_empty. simpl.
  destruct (truthy (filter (fun r => _ /\ status r = Error) rs)); simpl;
    [reflexivity|].
  destruct (truthy (filter (fun r => _ /\ status r = Fail) rs)); simpl;
    [reflexivity|].
  destruct (truthy (filter (fun r => _ /\ status r = Warn) rs)); simpl;
    [reflexivity|].
  destruct (truthy (filter _ rs)); simpl; [|reflexivity].
  destruct (Counter_get (Counter (map status rs)) Success);
    destruct (Counter_get (Counter (map status rs)) Pass); reflexivity.
Qed.

Lemma manifest_of_results nodes :
  Manifest_results (manifest_of nodes) = Ok nodes.
Proof. reflexivity. Qed.

(** C2: [overall_status] is the precedence ladder over the views, first
    match wins: Error if the errors or the fails are non-empty; else Warn
    if the warnings are non-empty; else Skipped if the skips are non-empty
    and the summary records no Success and no Pass; else Success.  So
    [Success, Fail] gives Error, [Success, Warn] gives Warn, [Skipped] (a
    skipped Model) gives Skipped, [Skipped, Success] gives Success and
    [Error, Warn] gives Error. *)
Theorem overall_status_ladder :
  (forall (self : Manifest) (rs : list BaseResult),
      Manifest_results self = Ok rs ->
      exists es fs ws ss c,
        errors self = Ok es /\ fails self = Ok fs /\ warnings self = Ok ws
        /\ skips self = Ok ss /\ summary self = Ok c
        /\ overall_status self = Ok (status_ladder es fs ws ss c))
  /\ overall_status (manifest_of [node_with_status Success;
                                   node_with_status Fail]) = Ok Error
  /\ overall_status (manifest_of [node_with_status Success;
                                   node_with_status Warn]) = Ok Warn
  /\ overall_status (manifest_of [node_with_status Skipped]) = Ok Skipped
  /\ overall_status (manifest_of [node_with_status Skipped;
                                   node_with_status Success]) = Ok Success
  /\ overall_status (manifest_of [node_with_status Error;
                                   node_with_status Warn]) = Ok Error.
Proof.
  split.
  - intros self rs Hrs. do 5 eexists.
    split; [by apply errors_eq|]. split; [by apply fails_eq|].
    split; [by apply warnings_eq|]. split; [by apply skips_eq|].
    split; [by apply summary_eq|]. by apply overall_status_eq.
  - repeat split;
      (erewrite overall_status_eq by apply manifest_of_results;
       vm_compute; reflexivity).
Qed.

(** C9: [total_gb_processed] is the sum, over all results, of the
    [bytes_processed] entry of the adapter response (0 when there is
    none), divided by 10^9; byte counts [2e9] give 2, [1.5e9, 2.5e9] give
    4, and no results give 0. *)
Theorem total_gb_processed_spec :
  (forall (self : Manifest) (rs : list BaseResult),
      Manifest_results self = Ok rs ->
      total_gb_processed self
      = Ok (total (map bytes_processed rs) / Q2Qc 1000000000)%Qc)
  /\ total_gb_processed (manifest_of [node_with_bytes (Q2Qc 2000000000)])
     = Ok (Q2Qc 2)
  /\ total_gb_processed (manifest_of [node_with_bytes (Q2Qc 1500000000);
                                      node_with_bytes (Q2Qc 2500000000)])
     = Ok (Q2Qc 4)
  /\ total_gb_processed (manifest_of []) = Ok (Q2Qc 0).
Proof.
  assert (Hgen : forall self rs,
             Manifest_results self = Ok rs ->
             total_gb_processed self
             = Ok (total (map bytes_processed rs) / Q2Qc 1000000000)%Qc).
  { intros self rs Hrs. unfold total_gb_processed. rewrite Hrs. simpl.
    by rewrite py_sum_total. }
  split; [exact Hgen|].
  repeat split;
    (erewrite Hgen by apply manifest_of_results;
     f_equal; apply Qc_is_canon; vm_compute; reflexivity).
Qed.

(** C10: when every node outcome is Skipped and none is of resource type
    Model (all skipped tests, say), [overall_status] is Success: the skips
    view is empty, although nothing succeeded or passed.  The same holds
    when there are no results at all. *)
Theorem overall_status_skipped_non_model :
  forall (self : Manifest) (rs : list BaseResult),
    Manifest_results self = Ok rs ->
    rs = []
    \/ (forall r, r ∈ rs -> is_NodeResult r = true ->
                  status r = Skipped /\ resource_type (node r) <> Some Model) ->
    overall_status self = Ok Success
    /\ skips self = Ok [].
Proof.
  intros self rs Hrs Hall.
  assert (Hall' : forall r, r ∈ rs -> is_NodeResult r = true ->
                    status r = Skipped /\ resource_type (node r) <> Some Model).
  { destruct Hall as [->|Hall]; [|exact Hall].
    intros r Hr. by apply elem_of_nil in Hr. }
  assert (Hnone : forall (P : BaseResult -> Prop) `{forall r, Decision (P r)},
             (forall r, r ∈ rs -> ~ P r) -> filter P rs = []).
  { intros P ? HP. clear Hrs Hall Hall'.
    induction rs as [|r rs' IH]; [reflexivity|].
    rewrite filter_cons_False by (apply HP; left).
    apply IH. intros; apply HP; by right. }
  rewrite (skips_eq _ _ Hrs), (overall_status_eq _ _ Hrs).
  rewrite !Hnone; [done|..]; intros r Hr Hp;
    (destruct Hp as (Hty & Hnode & _) || destruct Hp as [Hnode Hst]);
    destruct (Hall' r Hr Hnode); congruence.
Qed.

End ManifestClaims.

(** ** The wrapper: construction and attribute lookup *)

(** C6: construction raises if and only if both the outcome argument and
    the deprecated keyword are [None]; with no outcome but a value under
    the deprecated keyword, that value becomes the outcome of the wrapper,
    one deprecation warning is emitted and construction succeeds; with an
    outcome, it is kept and nothing is emitted. *)
Theorem Manifest__init__spec :
  forall (command : string) (primary deprecated : option RunExecutionResult),
    ((exists e, (Manifest__init__ command primary deprecated).2 = Raise e)
     <-> primary = None /\ deprecated = None)
    /\ (primary = None -> deprecated = None ->
        Manifest__init__ command primary deprecated
        = ([], Raise missing_run_execution_result))
    /\ (forall d, primary = None -> deprecated = Some d ->
        Manifest__init__ command primary deprecated
        = ([DeprecationWarning_dbt_manifest], Ok (mkManifest command d)))
    /\ (forall r, primary = Some r ->
        Manifest__init__ command primary deprecated
        = ([], Ok (mkManifest command r))).
Proof.
  intros command primary deprecated.
  destruct primary as [r|], deprecated as [d|]; cbn.
  all: split;
    [ first [ split; [intros [e He]; discriminate He
                     | intros [? ?]; discriminate]
            | split; eauto ]
    | repeat split; intros; simplify_eq; reflexivity ].
Qed.

Lemma Manifest_class_lookup_names key :
  is_Some (Manifest_class_lookup key)
  <-> key ∈ (Manifest_property_names ++ Manifest_functions
             ++ object_attributes)%list.
Proof.
  rewrite !elem_of_app. unfold Manifest_class_lookup. split.
  - destruct (Manifest_property_named key) as [p|] eqn:Hp.
    + intros _. left. unfold Manifest_property_named in Hp.
      unfold Manifest_property_names.
      repeat (case_decide; [subst key; set_solver|]). discriminate.
    + repeat case_bool_decide; [tauto | tauto | by intros [? ?]].
  - intros [Hin|[Hin|Hin]].
    + unfold Manifest_property_names in Hin.
      repeat (apply elem_of_cons in Hin as [->|Hin]; [vm_compute; eauto|]).
      by apply elem_of_nil in Hin.
    + destruct (Manifest_property_named key); [eauto|].
      rewrite bool_decide_eq_true_2 by done. eauto.
    + destruct (Manifest_property_named key); [eauto|].
      case_bool_decide; [eauto|].
      rewrite bool_decide_eq_true_2 by done. eauto.
Qed.

(** The names the class defines and the names set on the instance are
    apart. *)
Lemma Manifest_class_lookup_dict self key :
  is_Some (Manifest_class_lookup key) -> Manifest__dict__ self !! key = None.
Proof.
  intros Hs. rewrite Manifest__dict__lookup.
  repeat (case_decide;
          [subst key; vm_compute in Hs; by destruct Hs as [? [=]]|]).
  reflexivity.
Qed.

Lemma Manifest_getattr_class self key a :
  Manifest_class_lookup key = Some a ->
  Manifest_getattr self key = Ok (VClassAttribute a).
Proof.
  intros Ha. unfold Manifest_getattr.
  rewrite Ha, (Manifest_class_lookup_dict self key) by (rewrite Ha; eauto).
  by destruct (is_data_descriptor a).
Qed.

Lemma Manifest_getattr_instance self key :
  Manifest_class_lookup key = None ->
  Manifest_getattr self key
  = match Manifest__dict__ self !! key with
    | Some v => Ok v
    | None => Manifest__getattr__ self key
    end.
Proof. intros Hnone. unfold Manifest_getattr. by rewrite Hnone. Qed.

Section ManifestLookup.

Context `{Str Node} `{Str (gmap string Qc)}.

(** C5: a key looked up on a wrapper is first sought on the wrapper
    itself.  A name the class defines is found there: a property gives
    what its getter gives, a function of the class comes back bound, an
    attribute every object has is returned; so is an attribute set on the
    instance (the command, the outcome object).  Otherwise the attribute
    of the metadata object of the outcome is returned, when that object
    has the key; otherwise the attribute of the outcome object itself,
    when it has the key; otherwise an AttributeError is raised whose
    message names the type [Manifest] and the key. *)
Theorem Manifest_getattr_chain :
  forall (self : Manifest) (key : string),
    let res := run_execution_result self in
    (forall p, Manifest_class_lookup key = Some (ClassProperty p) ->
       (forall w a, property_get p self = (w, Ok a) ->
                    Manifest_attribute self key = (w, Ok a))
       /\ (forall w e, property_get p self = (w, Raise e) ->
                       exc_class e <> "AttributeError" ->
                       Manifest_attribute self key = (w, Raise e))
       /\ (forall w e, property_get p self = (w, Raise e) ->
                       exc_class e = "AttributeError" ->
                       Manifest_attribute self key
                       = (w, v ← Manifest__getattr__ self key;
                             Ok (AttrValue v))))
    /\ (forall name, Manifest_class_lookup key = Some (ClassFunction name) ->
          Manifest_attribute self key = ([], Ok (BoundMethod name)))
    /\ (forall name, Manifest_class_lookup key = Some (ObjectAttribute name) ->
          Manifest_attribute self key = ([], Ok (InheritedAttribute name)))
    /\ (Manifest_class_lookup key = None ->
        (forall v, Manifest__dict__ self !! key = Some v ->
                   Manifest_attribute self key = ([], Ok (AttrValue v)))
        /\ (Manifest__dict__ self !! key = None ->
            (forall md a,
                metadata res = MetadataObject md -> md !! key = Some a ->
                Manifest_attribute self key = ([], Ok (AttrValue (VAtom a))))
            /\ (metadata_or_None res ≫= (.!! key) = None ->
                (forall v, RunExecutionResult_getattr res key = Some v ->
                           Manifest_attribute self key
                           = ([], Ok (AttrValue v)))
                /\ (RunExecutionResult_getattr res key = None ->
                    Manifest_attribute self key
                    = ([], Raise (mkException "AttributeError"
                                    ("'Manifest' object has no attribute '"
                                     +:+ key +:+ "'")))))))
    /\ (is_Some (Manifest__dict__ self !! key)
        <-> key = "command" \/ key = "run_execution_result")
    /\ (is_Some (Manifest_class_lookup key)
        <-> key ∈ (Manifest_property_names ++ Manifest_functions
                   ++ object_attributes)%list).
Proof.
  intros self key res. unfold Manifest_attribute. split_and!.
  - intros p Hp. rewrite (Manifest_getattr_class _ _ _ Hp).
    split_and!; intros w ? Hget; rewrite Hget; [reflexivity| |].
    + intros Hclass.
      destruct (String.eqb_spec (exc_class e) "AttributeError"); done.
    + intros ->. reflexivity.
  - intros name Hf. by rewrite (Manifest_getattr_class _ _ _ Hf).
  - intros name Ho. by rewrite (Manifest_getattr_class _ _ _ Ho).
  - intros Hnone. rewrite (Manifest_getattr_instance _ _ Hnone). split.
    + intros v Hv. rewrite Hv. rewrite Manifest__dict__lookup in Hv.
      repeat case_decide; by simplify_eq.
    + intros ->. unfold Manifest__getattr__. fold res. split.
      * intros md a Hmd Hkey. unfold metadata_or_None. rewrite Hmd. simpl.
        by rewrite Hkey.
      * intros ->. split; [|by intros ->].
        intros v Hv. rewrite Hv. unfold RunExecutionResult_getattr in Hv.
        repeat case_decide; [by simplify_eq| |].
        -- destruct (metadata res); by simplify_eq.
        -- destruct (extra res !! key); simpl in Hv; by simplify_eq.
  - rewrite Manifest__dict__lookup.
    destruct (decide (key = "command")); [split; eauto|].
    destruct (decide (key = "run_execution_result")); [split; eauto|].
    split; [by intros [? ?] | by intros [?|?]].
  - apply Manifest_class_lookup_names.
Qed.

End ManifestLookup.

(** ** The runner: one command, and the batch *)

Section RunnerFacts.

Context {W : Type}.
Context (invoke : list string -> W -> dbtRunnerResult * W).
Context `{Truthy RunExecutionResult}.

Lemma execute_dbt_command_eq self command s :
  execute_dbt_command invoke self command s
  = let r := (invoke (cli_args self (strip_dbt command)) (world s)).1 in
    match exception r with
    | Some e => (Raise e, after_invocation invoke self command s)
    | None =>
        match result r with
        | Some o =>
            (Ok (mkManifest (strip_dbt command) o),
             after_invocation invoke self command s)
        | None =>
            (Raise missing_run_execution_result,
             after_invocation invoke self command s)
        end
    end.
Proof.
  unfold execute_dbt_command, after_invocation, dbt_invoke, mbind, Exec_bind.
  simpl.
  destruct (invoke _ (world s)) as [r w]. simpl.
  destruct (exception r) as [e|]; [reflexivity|].
  unfold new_Manifest. simpl.
  destruct (result r) as [o|]; simpl; by rewrite app_nil_r.
Qed.

(** An invocation that reports an exception raises it, whatever its
    result field holds. *)
Lemma execute_dbt_command_exception self command s e :
  exception (invoke (cli_args self (strip_dbt command)) (world s)).1 = Some e ->
  execute_dbt_command invoke self command s
  = (Raise e, after_invocation invoke self command s).
Proof. intros He. rewrite execute_dbt_command_eq. simpl. by rewrite He. Qed.

(** An invocation without exception and without outcome makes the
    constructor of the wrapper raise. *)
Lemma execute_dbt_command_no_outcome self command s :
  exception (invoke (cli_args self (strip_dbt command)) (world s)).1 = None ->
  result (invoke (cli_args self (strip_dbt command)) (world s)).1 = None ->
  execute_dbt_command invoke self command s
  = (Raise missing_run_execution_result,
     after_invocation invoke self command s).
Proof.
  intros He Hr. rewrite execute_dbt_command_eq. simpl. by rewrite He, Hr.
Qed.

Lemma run_loop_app self pre rest acc rs s s1 :
  run_loop invoke self pre acc s = (Ok rs, s1) ->
  run_loop invoke self (pre ++ rest) acc s = run_loop invoke self rest rs s1.
Proof.
  revert acc s. induction pre as [|c pre IH]; intros acc s; simpl.
  - by intros [= -> ->].
  - unfold mbind, Exec_bind.
    destruct (execute_dbt_command invoke self c s) as [[m|e] s'];
      [|discriminate].
    apply IH.
Qed.

(** A loop that returns has invoked the runner once per command, in
    order, with the arguments built for it. *)
Lemma run_loop_invoked self cmds acc rs s s1 :
  run_loop invoke self cmds acc s = (Ok rs, s1) ->
  invoked s1
  = (invoked s ++ map (fun c => cli_args self (strip_dbt c)) cmds)%list.
Proof.
  revert acc s. induction cmds as [|c cmds IH]; intros acc s; simpl.
  - intros [= _ <-]. by rewrite app_nil_r.
  - unfold mbind, Exec_bind.
    destruct (execute_dbt_command invoke self c s) as [[m|e] s'] eqn:E;
      [|discriminate].
    intros Hloop%IH. rewrite Hloop.
    rewrite execute_dbt_command_eq in E. simpl in E.
    destruct (exception _); [discriminate|].
    destruct (result _); [|discriminate].
    injection E as _ <-. unfold after_invocation. simpl.
    by rewrite <- app_assoc.
Qed.

(** C3: when the invocation for a command carries an exception, that
    very exception is what the batch call raises; no list is returned,
    the wrappers of the commands before it included, and the commands
    after it are never handed to the runner: the last invocation on
    record is the failing one. *)
Theorem run_raises_verbatim :
  forall (self : dbtRunnerParsons) (pre post : list string) (c : string)
         (e : PyException) (s s1 : ExecState W) (rs : list Manifest),
    commands self = (pre ++ c :: post)%list ->
    run_loop invoke self pre [] s = (Ok rs, s1) ->
    exception (invoke (cli_args self (strip_dbt c)) (world s1)).1 = Some e ->
    run invoke self s
    = (Raise e,
       mkExecState (invoke (cli_args self (strip_dbt c)) (world s1)).2
         (invoked s
          ++ map (fun c => cli_args self (strip_dbt c)) pre
          ++ [cli_args self (strip_dbt c)])
         (warned s1)).
Proof.
  intros self pre post c e s s1 rs Hcmds Hpre He.
  unfold run. rewrite Hcmds, (run_loop_app _ _ _ _ _ _ _ Hpre). simpl.
  unfold mbind, Exec_bind.
  rewrite (execute_dbt_command_exception _ _ _ _ He).
  unfold after_invocation. rewrite (run_loop_invoked _ _ _ _ _ _ Hpre).
  by rewrite <- app_assoc.
Qed.

End RunnerFacts.

(** ** The batch on concrete scripts *)

(** C1, as the code has it: a command whose invocation reports neither an
    exception nor an outcome is not left out of the list; the constructor
    of the wrapper raises ["missing run_execution_result"], the batch call
    ends with that exception, and the command after it is never run. *)
Theorem run_no_outcome_raises :
  @run _ scripted_invoke Truthy_by_len (sample_runner ["deps"; "run"])
    (start [answer_nothing; answer_outcome])
  = (Raise missing_run_execution_result,
     mkExecState [answer_outcome]
       [["deps"; "--project-dir"; "/srv/project"]] []).
Proof. reflexivity. Qed.

(** With an outcome for every command the batch returns the wrappers in
    command order, each under its stripped command. *)
Example run_two_outcomes :
  @run _ scripted_invoke Truthy_by_len (sample_runner ["dbt run"; "test"])
    (start [answer_outcome; answer_outcome])
  = (Ok [mkManifest "run" (run_execution_result_factory nodes_success_fail);
         mkManifest "test" (run_execution_result_factory nodes_success_fail)],
     mkExecState []
       [["run"; "--project-dir"; "/srv/project"];
        ["test"; "--project-dir"; "/srv/project"]] []).
Proof. reflexivity. Qed.

Lemma run_raises_verbatim_witness :
  commands (sample_runner ["run"; "test"; "docs generate"])
  = (["run"] ++ "test" :: ["docs generate"])%list
  /\ @run_loop _ scripted_invoke Truthy_by_len
       (sample_runner ["run"; "test"; "docs generate"]) ["run"] []
       (start [answer_outcome; answer_exception; answer_outcome])
     = (Ok [mkManifest "run" (run_execution_result_factory nodes_success_fail)],
        mkExecState [answer_exception; answer_outcome]
          [["run"; "--project-dir"; "/srv/project"]] [])
  /\ @run _ scripted_invoke Truthy_by_len
       (sample_runner ["run"; "test"; "docs generate"])
       (start [answer_outcome; answer_exception; answer_outcome])
     = (Raise DbtInternalException_profile,
        mkExecState [answer_outcome]
          [["run"; "--project-dir"; "/srv/project"];
           ["test"; "--project-dir"; "/srv/project"]] []).
Proof.
  split; [reflexivity|]. split; [reflexivity|].
  exact (@run_raises_verbatim _ scripted_invoke Truthy_by_len
           (sample_runner ["run"; "test"; "docs generate"])
           ["run"] ["docs generate"] "test" DbtInternalException_profile
           (start [answer_outcome; answer_exception; answer_outcome])
           (mkExecState [answer_exception; answer_outcome]
              [["run"; "--project-dir"; "/srv/project"]] [])
           [mkManifest "run" (run_execution_result_factory nodes_success_fail)]
           eq_refl eq_refl eq_refl).
Defined.

(** ** The wrapper on the fixtures of the test suite *)

Lemma overall_status_ladder_witness :
  Manifest_results (manifest_of nodes_success_fail) = Ok nodes_success_fail
  /\ exists es fs ws ss c,
       @errors sample_Str_Node sample_Str_dict (manifest_of nodes_success_fail)
       = Ok es
       /\ @fails sample_Str_Node sample_Str_dict
            (manifest_of nodes_success_fail)
          = Ok fs
       /\ @warnings sample_Str_Node sample_Str_dict
            (manifest_of nodes_success_fail) = Ok ws
       /\ @skips sample_Str_Node sample_Str_dict
            (manifest_of nodes_success_fail)
          = Ok ss
       /\ summary (manifest_of nodes_success_fail) = Ok c
       /\ @overall_status sample_Str_Node sample_Str_dict
            (manifest_of nodes_success_fail)
          = Ok (status_ladder es fs ws ss c).
Proof.
  split; [reflexivity|].
  exact (proj1 (@overall_status_ladder sample_Str_Node sample_Str_dict)
           (manifest_of nodes_success_fail) nodes_success_fail eq_refl).
Defined.

Lemma filter_results_spec_witness :
  Manifest_results (manifest_of nodes_success_fail) = Ok nodes_success_fail
  /\ (forall r kv,
         r ∈ nodes_success_fail -> is_NodeResult r = true ->
         kv ∈ [("status", "fail"); ("message", "Success")] ->
         is_Some (BaseResult_getattr r kv.1))
  /\ @filter_results sample_Str_Node sample_Str_dict
       (manifest_of nodes_success_fail)
       [("status", "fail"); ("message", "Success")]
     = Ok [node_with_status Fail].
Proof.
  assert (Hattr : forall r kv,
             r ∈ nodes_success_fail -> is_NodeResult r = true ->
             kv ∈ [("status", "fail"); ("message", "Success")] ->
             is_Some (BaseResult_getattr r kv.1)).
  { intros r kv Hr _ Hkv.
    apply elem_of_cons in Hkv as [->|Hkv];
      [|apply list_elem_of_singleton in Hkv as ->];
      (apply elem_of_cons in Hr as [->|Hr];
       [|apply list_elem_of_singleton in Hr as ->]); vm_compute; eauto. }
  split; [reflexivity|]. split; [exact Hattr|].
  destruct (proj1 (@filter_results_spec sample_Str_Node sample_Str_dict
                     (manifest_of nodes_success_fail) nodes_success_fail
                     [("status", "fail"); ("message", "Success")] eq_refl)
              Hattr)
    as (l & -> & -> & _).
  reflexivity.
Defined.

Lemma skips_spec_witness :
  Manifest_results (manifest_of nodes_skips) = Ok nodes_skips
  /\ @skips sample_Str_Node sample_Str_dict (manifest_of nodes_skips)
     = Ok [dbt_node_factory Skipped "m1" Model (Q2Qc 0)].
Proof.
  split; [reflexivity|].
  destruct (@skips_spec sample_Str_Node sample_Str_dict
              (manifest_of nodes_skips) nodes_skips eq_refl)
    as (ss & -> & -> & _).
  reflexivity.
Defined.

Lemma total_gb_processed_spec_witness :
  Manifest_results (manifest_of [node_with_bytes (Q2Qc 2000000000)])
  = Ok [node_with_bytes (Q2Qc 2000000000)]
  /\ total_gb_processed (manifest_of [node_with_bytes (Q2Qc 2000000000)])
     = Ok (total (map bytes_processed [node_with_bytes (Q2Qc 2000000000)])
           / Q2Qc 1000000000)%Qc.
Proof.
  split; [reflexivity|].
  exact (proj1 total_gb_processed_spec
           (manifest_of [node_with_bytes (Q2Qc 2000000000)])
           [node_with_bytes (Q2Qc 2000000000)] eq_refl).
Defined.

Lemma overall_status_skipped_non_model_witness :
  Manifest_results (manifest_of nodes_skipped_tests) = Ok nodes_skipped_tests
  /\ (forall r, r ∈ nodes_skipped_tests -> is_NodeResult r = true ->
                status r = Skipped /\ resource_type (node r) <> Some Model)
  /\ @overall_status sample_Str_Node sample_Str_dict
       (manifest_of nodes_skipped_tests) = Ok Success
  /\ @overall_status sample_Str_Node sample_Str_dict (manifest_of [])
     = Ok Success.
Proof.
  assert (Hall : forall r,
             r ∈ nodes_skipped_tests -> is_NodeResult r = true ->
                   status r = Skipped /\ resource_type (node r) <> Some Model).
  { intros r Hr _.
    apply elem_of_cons in Hr as [->|Hr];
      [|apply list_elem_of_singleton in Hr as ->]; split;
      (reflexivity || discriminate). }
  split; [reflexivity|]. split; [exact Hall|]. split.
  - exact (proj1 (@overall_status_skipped_non_model
                    sample_Str_Node sample_Str_dict
                    (manifest_of nodes_skipped_tests) nodes_skipped_tests
                    eq_refl (or_intror Hall))).
  - exact (proj1 (@overall_status_skipped_non_model
                    sample_Str_Node sample_Str_dict
                    (manifest_of []) [] eq_refl (or_introl eq_refl))).
Defined.

Lemma cli_args_spec_witness :
  cli_args runner_with_profiles (strip_dbt "dbt test --select model_a")
  = ["test"; "--select"; "model_a"; "--project-dir"; "/srv/project";
     "--profiles-dir"; "/path/to/profiles"]
  /\ PyStr.split " " (strip_dbt "dbt test --select model_a")
     = ["test"; "--select"; "model_a"].
Proof.
  destruct (cli_args_spec runner_with_profiles "dbt test --select model_a")
    as (_ & Hargs & _ & _ & _ & Huniq & _).
  split.
  - rewrite Hargs. reflexivity.
  - symmetry. apply Huniq.
    + discriminate.
    + repeat constructor.
    + reflexivity.
Defined.

Lemma Manifest__init__spec_witness :
  Manifest__init__ "run" None (Some (run_execution_result_factory []))
  = ([DeprecationWarning_dbt_manifest],
     Ok (mkManifest "run" (run_execution_result_factory [])))
  /\ Manifest__init__ "run" None None = ([], Raise missing_run_execution_result)
  /\ exists e, (Manifest__init__ "run" None None).2 = Raise e.
Proof.
  destruct (Manifest__init__spec "run" None
              (Some (run_execution_result_factory [])))
    as (_ & _ & Hdep & _).
  destruct (Manifest__init__spec "run" None None) as (Hiff & Hnone & _ & _).
  split; [exact (Hdep _ eq_refl eq_refl)|].
  split; [exact (Hnone eq_refl eq_refl)|].
  exact (proj2 Hiff (conj eq_refl eq_refl)).
Defined.

Lemma Manifest_getattr_chain_witness :
  @Manifest_attribute sample_Str_Node sample_Str_dict
     (manifest_of nodes_success_fail) "overall_status"
  = ([], Ok (AttrStatus Error))
  /\ @Manifest_attribute sample_Str_Node sample_Str_dict
       (manifest_of []) "filter_results"
     = ([], Ok (BoundMethod "filter_results"))
  /\ @Manifest_attribute sample_Str_Node sample_Str_dict
       (manifest_of []) "command"
     = ([], Ok (AttrValue (VAtom (AStr "run"))))
  /\ @Manifest_attribute sample_Str_Node sample_Str_dict
       (manifest_of []) "project_id"
     = ([], Ok (AttrValue (VAtom (AStr "parsons_project"))))
  /\ @Manifest_attribute sample_Str_Node sample_Str_dict
       (manifest_of []) "elapsed_time"
     = ([], Ok (AttrValue (VAtom (AOpaque "10.0"))))
  /\ @Manifest_attribute sample_Str_Node sample_Str_dict
       (manifest_of []) "missing_key"
     = ([], Raise (mkException "AttributeError"
                     "'Manifest' object has no attribute 'missing_key'")).
Proof.
  split_and!.
  - destruct (@Manifest_getattr_chain sample_Str_Node sample_Str_dict
                (manifest_of nodes_success_fail) "overall_status")
      as (Hproperty & _).
    refine (proj1 (Hproperty overall_status_property eq_refl) [] _ _).
    vm_compute. reflexivity.
  - destruct (@Manifest_getattr_chain sample_Str_Node sample_Str_dict
                (manifest_of []) "filter_results")
      as (_ & Hfunction & _).
    exact (Hfunction "filter_results" eq_refl).
  - destruct (@Manifest_getattr_chain sample_Str_Node sample_Str_dict
                (manifest_of []) "command")
      as (_ & _ & _ & Hrest & _).
    exact (proj1 (Hrest eq_refl) _ eq_refl).
  - destruct (@Manifest_getattr_chain sample_Str_Node sample_Str_dict
                (manifest_of []) "project_id")
      as (_ & _ & _ & Hrest & _).
    exact (proj1 (proj2 (Hrest eq_refl) eq_refl) _ _ eq_refl eq_refl).
  - destruct (@Manifest_getattr_chain sample_Str_Node sample_Str_dict
                (manifest_of []) "elapsed_time")
      as (_ & _ & _ & Hrest & _).
    exact (proj1 (proj2 (proj2 (Hrest eq_refl) eq_refl) eq_refl) _ eq_refl).
  - destruct (@Manifest_getattr_chain sample_Str_Node sample_Str_dict
                (manifest_of []) "missing_key")
      as (_ & _ & _ & Hrest & _).
    exact (proj2 (proj2 (proj2 (Hrest eq_refl) eq_refl) eq_refl) eq_refl).
Defined.

(** ** More on the argument list *)

Lemma split_length sep s :
  length (PyStr.split sep s) = S (count_char sep s).
Proof.
  induction s as [|c s IH]; simpl; [reflexivity|].
  destruct (Ascii.eqb c sep); simpl.
  - by rewrite IH.
  - destruct (PyStr.split sep s) as [|t ts]; [discriminate IH|].
    simpl in *. exact IH.
Qed.

(** Every space of the stripped command adds one token: the argument list
    has one token more than the command has spaces, plus two for the
    project directory and two for the profile directory when there is
    one. *)
Theorem cli_args_length :
  forall (self : dbtRunnerParsons) (command : string),
    length (cli_args self command)
    = S (count_char " " command) + 2
      + match dbt_profile_directory self with Some _ => 2 | None => 0 end.
Proof.
  intros self command. rewrite cli_args_tokens_flags, length_app, split_length.
  unfold context_flags. destruct (dbt_profile_directory self); simpl; lia.
Qed.

Lemma append_cons c (s t : string) : String c s +:+ t = String c (s +:+ t).
Proof. reflexivity. Qed.

(** A text without a space does not start with ["dbt "]; followed by a
    space it does exactly when it is ["dbt"]. *)
Lemma startswith_dbt_space_free t :
  PyStr.contains " " t = false -> PyStr.startswith "dbt " t = false.
Proof.
  intros Hc. destruct (PyStr.startswith "dbt " t) eqn:E; [|reflexivity].
  apply (startswith_slice "dbt ") in E. rewrite E in Hc.
  change (PyStr.contains " "
            (String "d" (String "b" (String "t" (String " "
               (PyStr.slice_from 4 t))))) = false) in Hc.
  simpl in Hc. discriminate Hc.
Qed.

Lemma startswith_dbt_first_word t rest :
  PyStr.contains " " t = false ->
  PyStr.startswith "dbt " (t +:+ String " " rest) = String.eqb t "dbt".
Proof.
  intros Hc. destruct (String.eqb_spec t "dbt") as [->|Hne].
  - change ("dbt" +:+ String " " rest)
      with (String "d" (String "b" (String "t" (String " " rest)))).
    unfold PyStr.startswith. cbn.
    repeat (destruct (ascii_dec _ _) as [_|Hne]; [|by destruct Hne]).
    by destruct rest.
  - unfold PyStr.startswith.
    destruct t as [|c1 [|c2 [|c3 [|c4 t]]]];
      rewrite ?append_cons; change (EmptyString +:+ String " " rest)
                              with (String " " rest);
      cbn [String.prefix];
      repeat match goal with
             | |- context [ascii_dec ?a ?b] =>
                 destruct (ascii_dec a b) as [?|?]; [|reflexivity]
             end;
      try congruence; subst; simpl in Hc; congruence.
Qed.

(** ** More on the batch *)

Lemma strip_dbt_marker command : strip_dbt ("dbt " +:+ command) = command.
Proof.
  change ("dbt " +:+ command)
    with (String "d" (String "b" (String "t" (String " " command)))).
  unfold strip_dbt, PyStr.startswith. cbn.
  repeat (destruct (ascii_dec _ _) as [_|Hne]; [|by destruct Hne]).
  by destruct command.
Qed.

Lemma strip_dbt_tokens l :
  l <> [] ->
  Forall (fun t => PyStr.contains " " t = false) l ->
  PyStr.split " " (strip_dbt (PyStr.join " " l)) = without_marker l.
Proof.
  intros Hne Hall. destruct l as [|t [|u l]]; [congruence| |].
  - inversion Hall as [|? ? Ht _]; subst.
    change (PyStr.join " " [t]) with t. unfold strip_dbt.
    rewrite (startswith_dbt_space_free t Ht). by apply split_no_sep_id.
  - inversion Hall as [|? ? Ht Hrest]; subst.
    rewrite join_cons by discriminate. unfold strip_dbt, without_marker.
    rewrite (startswith_dbt_first_word _ _ Ht).
    destruct (String.eqb_spec t "dbt") as [->|Hmarker].
    + change (PyStr.slice_from 4
                ("dbt" +:+ String " " (PyStr.join " " (u :: l))))
        with (PyStr.join " " (u :: l)).
      by apply split_join.
    + rewrite <- join_cons by discriminate. by apply split_join.
Qed.

Section RunnerMore.

Context {W : Type}.
Context (invoke : list string -> W -> dbtRunnerResult * W).
Context `{Truthy RunExecutionResult}.

(** The leading ["dbt "] is optional: for a command that does not start
    with it, running the command with the marker in front does what
    running the bare command does, to the wrapper and to the state. *)
Theorem execute_dbt_command_marker_optional :
  forall (self : dbtRunnerParsons) (command : string) (s : ExecState W),
    PyStr.startswith "dbt " command = false ->
    execute_dbt_command invoke self ("dbt " +:+ command) s
    = execute_dbt_command invoke self command s.
Proof.
  intros self command s Hbare.
  rewrite !execute_dbt_command_eq. unfold after_invocation.
  rewrite strip_dbt_marker.
  assert (Hstrip : strip_dbt command = command)
    by (unfold strip_dbt; by rewrite Hbare).
  by rewrite Hstrip.
Qed.

(** For a command given as space-free tokens joined by single spaces,
    dbt is invoked with exactly those tokens (without a leading ["dbt"]
    that another token follows) and, after them, the project and profile
    flags; the wrapper that comes back carries the same tokens, joined by
    single spaces, as its command. *)
Theorem execute_dbt_command_tokens :
  forall (self : dbtRunnerParsons) (l : list string) (s : ExecState W),
    l <> [] ->
    Forall (fun t => PyStr.contains " " t = false) l ->
    invoked (execute_dbt_command invoke self (PyStr.join " " l) s).2
    = (invoked s ++ [(without_marker l ++ context_flags self)%list])%list
    /\ forall m s',
         execute_dbt_command invoke self (PyStr.join " " l) s = (Ok m, s') ->
         command m = PyStr.join " " (without_marker l).
Proof.
  intros self l s Hne Hall.
  pose proof (strip_dbt_tokens l Hne Hall) as Htokens.
  assert (Hstrip : strip_dbt (PyStr.join " " l)
                   = PyStr.join " " (without_marker l))
    by (by rewrite <- Htokens, join_split).
  rewrite execute_dbt_command_eq. simpl. split.
  - rewrite <- Htokens, <- cli_args_tokens_flags.
    destruct (exception _); [reflexivity|].
    by destruct (result _).
  - intros m s'. destruct (exception _); [discriminate|].
    destruct (result _); [|discriminate].
    intros [= <- _]. exact Hstrip.
Qed.

Lemma run_loop_step self c rest acc s :
  run_loop invoke self (c :: rest) acc s
  = match execute_dbt_command invoke self c s with
    | (Ok m, s') =>
        run_loop invoke self rest
          (if truthy (run_execution_result m) then (acc ++ [m])%list else acc)
          s'
    | (Raise e, s') => (Raise e, s')
    end.
Proof. reflexivity. Qed.

(** When every command of the batch is answered, the loop returns the
    wrappers that are kept. *)
Lemma run_loop_answered self cmds acc s :
  Forall answered (answers invoke self cmds (world s)) ->
  run_loop invoke self cmds acc s
  = (Ok (acc ++ wrappers_kept cmds (answers invoke self cmds (world s)))%list,
     mkExecState (world_after invoke self cmds (world s))
       (invoked s ++ map (fun c => cli_args self (strip_dbt c)) cmds)%list
       (warned s)).
Proof.
  revert acc s. induction cmds as [|c cmds IH]; intros acc s Hall.
  - simpl. rewrite !app_nil_r. by destruct s.
  - rewrite run_loop_step, execute_dbt_command_eq.
    cbn [answers world_after] in *.
    destruct (invoke (cli_args self (strip_dbt c)) (world s)) as [r w] eqn:E.
    inversion Hall as [|? ? [Hexc [o Ho]] Hrest]; subst. simpl.
    rewrite Hexc, Ho.
    rewrite IH by (unfold after_invocation; simpl; by rewrite E).
    unfold after_invocation. simpl. rewrite E. simpl.
    unfold wrappers_kept. simpl. unfold wrapper_kept at 2. simpl. rewrite Ho.
    f_equal; [|by rewrite <- app_assoc].
    f_equal. destruct (truthy o); simpl; [by rewrite <- app_assoc | done].
Qed.

Lemma run_loop_Ok_answered self cmds acc s rs s' :
  run_loop invoke self cmds acc s = (Ok rs, s') ->
  Forall answered (answers invoke self cmds (world s)).
Proof.
  revert acc s. induction cmds as [|c cmds IH]; intros acc s; [constructor|].
  rewrite run_loop_step, execute_dbt_command_eq. cbn [answers].
  unfold after_invocation.
  destruct (invoke (cli_args self (strip_dbt c)) (world s)) as [r w]. simpl.
  destruct (exception r) eqn:Hexc; [discriminate|].
  destruct (result r) as [o|] eqn:Ho; [|discriminate].
  intros Hloop%IH. constructor; [|exact Hloop].
  split; [exact Hexc | eauto].
Qed.

(** The batch returns a list exactly when every invocation along it
    reports no exception and has an outcome; the list then holds, in
    command order and under the stripped commands, the wrappers of the
    outcomes that count as true, the runner has been invoked once for
    every command, in order, and no warning has been emitted. *)
Theorem run_returns_iff :
  forall (self : dbtRunnerParsons) (s : ExecState W),
    ((exists rs s', run invoke self s = (Ok rs, s'))
     <-> Forall answered (answers invoke self (commands self) (world s)))
    /\ (Forall answered (answers invoke self (commands self) (world s)) ->
        run invoke self s
        = (Ok (wrappers_kept (commands self)
                 (answers invoke self (commands self) (world s))),
           mkExecState (world_after invoke self (commands self) (world s))
             (invoked s
              ++ map (fun c => cli_args self (strip_dbt c)) (commands self))%list
             (warned s))).
Proof.
  intros self s. unfold run. split; [split|].
  - intros (rs & s' & Hrun). by eapply run_loop_Ok_answered.
  - intros Hall. rewrite run_loop_answered by assumption. eauto.
  - intros Hall. by rewrite run_loop_answered.
Qed.

Lemma run_loop_state self cmds acc s :
  warned (run_loop invoke self cmds acc s).2 = warned s
  /\ exists n,
       n <= length cmds
       /\ invoked (run_loop invoke self cmds acc s).2
          = (invoked s
             ++ map (fun c => cli_args self (strip_dbt c)) (take n cmds))%list.
Proof.
  revert acc s. induction cmds as [|c cmds IH]; intros acc s.
  - simpl. split; [reflexivity|]. exists 0. by rewrite app_nil_r.
  - rewrite run_loop_step, execute_dbt_command_eq. simpl.
    destruct (exception _) as [e|].
    { simpl. split; [reflexivity|]. exists 1. split; [simpl; lia|].
      simpl. by rewrite ?take_0. }
    destruct (result _) as [o|].
    + match goal with
      | |- context [run_loop invoke self cmds ?a ?t] =>
          destruct (IH a t) as (Hw & n & Hn & Hi)
      end.
      split; [by rewrite Hw|]. exists (S n). split; [lia|].
      rewrite Hi. simpl. by rewrite <- app_assoc.
    + simpl. split; [reflexivity|]. exists 1. split; [simpl; lia|].
      simpl. by rewrite ?take_0.
Qed.

(** Whether the batch returns or raises, it emits no warning, and the
    runner has been invoked for a leading part of the commands, once each
    and in order, with the arguments built for them. *)
Theorem run_state_invariant :
  forall (self : dbtRunnerParsons) (s : ExecState W),
    warned (run invoke self s).2 = warned s
    /\ exists n,
         n <= length (commands self)
         /\ invoked (run invoke self s).2
            = (invoked s
               ++ map (fun c => cli_args self (strip_dbt c))
                    (take n (commands self)))%list.
Proof. intros self s. apply run_loop_state. Qed.

Lemma run_loop_wrappers self cmds acc s rs s' :
  run_loop invoke self cmds acc s = (Ok rs, s') ->
  exists new,
    rs = (acc ++ new)%list
    /\ length new <= length cmds
    /\ Forall (fun m => truthy (run_execution_result m) = true
                        /\ exists c, c ∈ cmds /\ command m = strip_dbt c) new.
Proof.
  revert acc s. induction cmds as [|c cmds IH]; intros acc s.
  - simpl. intros [= <- _]. exists []. by rewrite app_nil_r.
  - rewrite run_loop_step, execute_dbt_command_eq. simpl.
    destruct (exception _); [discriminate|].
    destruct (result _) as [o|]; [|discriminate].
    intros (new & -> & Hlen & Hall)%IH.
    assert (Hall' : Forall (fun m => truthy (run_execution_result m) = true
                       /\ exists c0, c0 ∈ c :: cmds /\ command m = strip_dbt c0)
                      new).
    { eapply Forall_impl; [exact Hall|].
      intros m (Ht & c0 & Hc0 & Hm). split; [exact Ht|].
      exists c0. split; [by right | exact Hm]. }
    simpl. destruct (truthy o) eqn:Ho.
    + exists (mkManifest (strip_dbt c) o :: new).
      split; [by rewrite <- app_assoc|]. split; [simpl; lia|].
      constructor; [|exact Hall'].
      split; [exact Ho|]. exists c. split; [left | reflexivity].
    + exists new. split; [reflexivity|]. split; [lia | exact Hall'].
Qed.

(** Every wrapper the batch returns holds an outcome that counts as true
    and carries the stripped form of one of the commands; the list is
    never longer than the batch. *)
Theorem run_wrappers_truthy :
  forall (self : dbtRunnerParsons) (s s' : ExecState W) (rs : list Manifest),
    run invoke self s = (Ok rs, s') ->
    length rs <= length (commands self)
    /\ Forall (fun m => truthy (run_execution_result m) = true
                        /\ exists c, c ∈ commands self
                                     /\ command m = strip_dbt c) rs.
Proof.
  intros self s s' rs (new & -> & Hlen & Hall)%run_loop_wrappers.
  by split.
Qed.

Lemma run_loop_acc self cmds acc s :
  run_loop invoke self cmds acc s
  = match run_loop invoke self cmds [] s with
    | (Ok rs, s') => (Ok (acc ++ rs)%list, s')
    | (Raise e, s') => (Raise e, s')
    end.
Proof.
  revert acc s. induction cmds as [|c cmds IH]; intros acc s.
  - simpl. by rewrite app_nil_r.
  - rewrite !run_loop_step.
    destruct (execute_dbt_command invoke self c s) as [[m|e] s1];
      [|reflexivity].
    rewrite (IH (if truthy (run_execution_result m)
                 then (acc ++ [m])%list else acc)).
    rewrite (IH (if truthy (run_execution_result m)
                 then ([] ++ [m])%list else [])).
    destruct (run_loop invoke self cmds [] s1) as [[rs|e] s2];
      [|reflexivity].
    destruct (truthy (run_execution_result m)); simpl;
      [by rewrite <- app_assoc | reflexivity].
Qed.

Lemma run_loop_app_raise self pre rest acc e s s1 :
  run_loop invoke self pre acc s = (Raise e, s1) ->
  run_loop invoke self (pre ++ rest) acc s = (Raise e, s1).
Proof.
  revert acc s. induction pre as [|c pre IH]; intros acc s;
    [discriminate|].
  simpl app. rewrite !run_loop_step.
  destruct (execute_dbt_command invoke self c s) as [[m|e'] s'];
    [apply IH | done].
Qed.

Lemma run_loop_same_dirs self1 self2 cmds acc s :
  dbt_project_directory self1 = dbt_project_directory self2 ->
  dbt_profile_directory self1 = dbt_profile_directory self2 ->
  run_loop invoke self1 cmds acc s = run_loop invoke self2 cmds acc s.
Proof.
  intros Hproject Hprofiles.
  assert (Hargs : forall c, cli_args self1 c = cli_args self2 c)
    by (intros c; unfold cli_args; by rewrite Hproject, Hprofiles).
  revert acc s. induction cmds as [|c cmds IH]; intros acc s; [reflexivity|].
  rewrite !run_loop_step, !execute_dbt_command_eq. unfold after_invocation.
  rewrite Hargs. simpl.
  destruct (exception _); [reflexivity|].
  destruct (result _); [apply IH | reflexivity].
Qed.

(** A batch made of two lists of commands, one after the other, does what
    the batch of the first list followed, from the state it leaves, by
    the batch of the second does: the wrappers of both in order when both
    return, the exception of the first that raises otherwise. *)
Theorem run_app :
  forall (cmds1 cmds2 : list string) (project : Path)
         (profiles : option Path) (s : ExecState W),
    run invoke (mkRunner (cmds1 ++ cmds2) project profiles) s
    = match run invoke (mkRunner cmds1 project profiles) s with
      | (Ok rs1, s1) =>
          match run invoke (mkRunner cmds2 project profiles) s1 with
          | (Ok rs2, s2) => (Ok (rs1 ++ rs2)%list, s2)
          | (Raise e, s2) => (Raise e, s2)
          end
      | (Raise e, s1) => (Raise e, s1)
      end.
Proof.
  intros cmds1 cmds2 project profiles s. unfold run. simpl.
  rewrite (run_loop_same_dirs (mkRunner cmds1 project profiles)
             (mkRunner (cmds1 ++ cmds2) project profiles)) by reflexivity.
  destruct (run_loop invoke _ cmds1 [] s) as [[rs1|e] s1] eqn:E1.
  - rewrite (run_loop_same_dirs (mkRunner cmds2 project profiles)
               (mkRunner (cmds1 ++ cmds2) project profiles)) by reflexivity.
    rewrite (run_loop_app _ _ _ _ _ _ _ _ E1). apply run_loop_acc.
  - by apply run_loop_app_raise.
Qed.

End RunnerMore.

Lemma execute_dbt_command_marker_optional_witness :
  PyStr.startswith "dbt " "build -s staging" = false
  /\ @execute_dbt_command _ scripted_invoke
       (sample_runner []) "dbt build -s staging" (start [answer_outcome])
     = @execute_dbt_command _ scripted_invoke
         (sample_runner []) "build -s staging" (start [answer_outcome]).
Proof.
  split; [reflexivity|].
  exact (@execute_dbt_command_marker_optional _ scripted_invoke
           (sample_runner []) "build -s staging" (start [answer_outcome])
           eq_refl).
Defined.

Lemma execute_dbt_command_tokens_witness :
  ["dbt"; "build"; "-s"; "models/staging"] <> []
  /\ Forall (fun t => PyStr.contains " " t = false)
       ["dbt"; "build"; "-s"; "models/staging"]
  /\ @execute_dbt_command _ scripted_invoke (sample_runner [])
       "dbt build -s models/staging" (start [answer_outcome])
     = (Ok (mkManifest "build -s models/staging"
              (run_execution_result_factory nodes_success_fail)),
        mkExecState []
          [["build"; "-s"; "models/staging";
            "--project-dir"; "/srv/project"]] [])
  /\ invoked (@execute_dbt_command _ scripted_invoke (sample_runner [])
                (PyStr.join " " ["dbt"; "build"; "-s"; "models/staging"])
                (start [answer_outcome])).2
     = ([] ++ [(without_marker ["dbt"; "build"; "-s"; "models/staging"]
                ++ context_flags (sample_runner []))%list])%list.
Proof.
  assert (Hall : Forall (fun t => PyStr.contains " " t = false)
                   ["dbt"; "build"; "-s"; "models/staging"])
    by (repeat constructor).
  split; [discriminate|]. split; [exact Hall|]. split; [reflexivity|].
  refine (proj1 (@execute_dbt_command_tokens _ scripted_invoke
                   (sample_runner [])
                   ["dbt"; "build"; "-s"; "models/staging"]
                   (start [answer_outcome]) _ Hall)).
  discriminate.
Defined.

Lemma run_returns_iff_witness :
  Forall answered
    (answers scripted_invoke (sample_runner ["dbt run"; "test"])
       ["dbt run"; "test"] [answer_outcome; answer_outcome])
  /\ @run _ scripted_invoke Truthy_by_len (sample_runner ["dbt run"; "test"])
       (start [answer_outcome; answer_outcome])
     = (Ok [mkManifest "run" (run_execution_result_factory nodes_success_fail);
            mkManifest "test"
              (run_execution_result_factory nodes_success_fail)],
        mkExecState []
          [["run"; "--project-dir"; "/srv/project"];
           ["test"; "--project-dir"; "/srv/project"]] []).
Proof.
  assert (Hall : Forall answered
            (answers scripted_invoke (sample_runner ["dbt run"; "test"])
               ["dbt run"; "test"] [answer_outcome; answer_outcome])).
  { repeat (constructor; [split; [reflexivity | eexists; reflexivity]|]).
    constructor. }
  split; [exact Hall|].
  exact (proj2 (@run_returns_iff _ scripted_invoke Truthy_by_len
                  (sample_runner ["dbt run"; "test"])
                  (start [answer_outcome; answer_outcome])) Hall).
Defined.

Lemma run_wrappers_truthy_witness :
  @run _ scripted_invoke Truthy_by_len (sample_runner ["dbt run"; "test"])
    (start [answer_outcome; mkRunnerResult None
                              (Some (run_execution_result_factory []))])
  = (Ok [mkManifest "run" (run_execution_result_factory nodes_success_fail)],
     mkExecState []
       [["run"; "--project-dir"; "/srv/project"];
        ["test"; "--project-dir"; "/srv/project"]] [])
  /\ length [mkManifest "run"
               (run_execution_result_factory nodes_success_fail)]
     <= length (commands (sample_runner ["dbt run"; "test"]))
  /\ Forall (fun m => @truthy _ Truthy_by_len (run_execution_result m) = true
                      /\ exists c, c ∈ commands
                                         (sample_runner ["dbt run"; "test"])
                                   /\ command m = strip_dbt c)
       [mkManifest "run" (run_execution_result_factory nodes_success_fail)].
Proof.
  split; [reflexivity|].
  exact (@run_wrappers_truthy _ scripted_invoke Truthy_by_len
           (sample_runner ["dbt run"; "test"])
           (start [answer_outcome;
                   mkRunnerResult None
                     (Some (run_execution_result_factory []))])
           (mkExecState []
              [["run"; "--project-dir"; "/srv/project"];
               ["test"; "--project-dir"; "/srv/project"]] [])
           [mkManifest "run" (run_execution_result_factory nodes_success_fail)]
           eq_refl).
Defined.

(** ** The batch with its loggers *)

Section LoggerFacts.

Context {W L C : Type}.
Context (invoke : list string -> W -> dbtRunnerResult * W).
Context `{Truthy RunExecutionResult}.
Context (instantiate : C -> W -> Result L * W).
Context (send : L -> list Manifest -> W -> Result (list Manifest) * W).

Lemma dispatch_all_app pre post rs rs' s s' :
  dispatch_all instantiate send pre rs s = (Ok rs', s') ->
  dispatch_all instantiate send (pre ++ post) rs s
  = dispatch_all instantiate send post rs' s'.
Proof.
  revert rs s. induction pre as [|lg pre IH]; intros rs s; simpl.
  - by intros [= -> ->].
  - unfold mbind, Exec_bind.
    destruct (dispatch instantiate send lg rs s) as [[rs1|e] s1];
      [apply IH | discriminate].
Qed.

Lemma dispatch_quiet lg rs s :
  quiet instantiate send lg ->
  exists w,
    dispatch instantiate send lg rs s
    = (Ok rs, mkExecState w (invoked s) (warned s)).
Proof.
  destruct lg as [l|cls]; simpl; intros Hq; unfold dispatch, on_world;
    unfold mbind, Exec_bind, mret, Exec_ret.
  - specialize (Hq rs (world s)).
    destruct (send l rs (world s)) as [r w]. simpl in Hq. subst r. eauto.
  - destruct (Hq (world s)) as (l & Hl & Hsend).
    destruct (instantiate cls (world s)) as [r w]. simpl in Hl. subst r.
    simpl. specialize (Hsend rs w).
    destruct (send l rs w) as [r w']. simpl in Hsend. subst r. eauto.
Qed.

Lemma dispatch_all_quiet loggers rs s :
  Forall (quiet instantiate send) loggers ->
  exists w,
    dispatch_all instantiate send loggers rs s
    = (Ok rs, mkExecState w (invoked s) (warned s)).
Proof.
  intros Hall. revert s.
  induction Hall as [|lg loggers Hq _ IH]; intros s; simpl.
  - exists (world s). by destruct s.
  - unfold mbind, Exec_bind.
    destruct (dispatch_quiet lg rs s Hq) as [w ->].
    destruct (IH (mkExecState w (invoked s) (warned s))) as [w' ->].
    eauto.
Qed.

(** When the batch raises, the call raises the same exception from the
    same state, whatever loggers were given: none of them is instantiated
    and none is sent anything. *)
Theorem run_dbt_commands_batch_raises :
  forall (commands : string + list string) (project : Path)
         (profiles : option Path) (loggers : option (list (LoggerEntry L C)))
         (s s' : ExecState W) (e : PyException),
    run invoke (dbtRunnerParsons__init__ commands project profiles) s
    = (Raise e, s') ->
    run_dbt_commands invoke instantiate send commands project profiles
      loggers s
    = (Raise e, s').
Proof.
  intros commands project profiles loggers s s' e Hrun.
  unfold run_dbt_commands, mbind, Exec_bind. by rewrite Hrun.
Qed.

(** When a logger raises, in its instantiation or in [send], the call
    raises that exception: the list of the batch is not returned, and the
    loggers after it are not reached, the state being the one the failing
    logger left. *)
Theorem run_dbt_commands_logger_raises :
  forall (commands : string + list string) (project : Path)
         (profiles : option Path) (pre post : list (LoggerEntry L C))
         (lg : LoggerEntry L C) (s s1 s2 s3 : ExecState W)
         (rs rs' : list Manifest) (e : PyException),
    run invoke (dbtRunnerParsons__init__ commands project profiles) s
    = (Ok rs, s1) ->
    dispatch_all instantiate send pre rs s1 = (Ok rs', s2) ->
    dispatch instantiate send lg rs' s2 = (Raise e, s3) ->
    run_dbt_commands invoke instantiate send commands project profiles
      (Some (pre ++ lg :: post)%list) s
    = (Raise e, s3).
Proof.
  intros commands project profiles pre post lg s s1 s2 s3 rs rs' e
    Hrun Hpre Hlg.
  unfold run_dbt_commands, mbind at 1, Exec_bind at 1. rewrite Hrun.
  assert (Ht : truthy (pre ++ lg :: post)%list = true) by by destruct pre.
  rewrite Ht, (dispatch_all_app _ _ _ _ _ _ Hpre). simpl.
  unfold mbind, Exec_bind. by rewrite Hlg.
Qed.

(** Loggers that can be instantiated and whose [send] returns and leaves
    the list alone do not change what the call gives: it returns or raises
    what the batch does, and the invocations and warnings on record are
    those of the batch.  Without loggers the call is the batch. *)
Theorem run_dbt_commands_quiet_loggers :
  forall (commands : string + list string) (project : Path)
         (profiles : option Path) (loggers : list (LoggerEntry L C))
         (s : ExecState W),
    Forall (quiet instantiate send) loggers ->
    (run_dbt_commands invoke instantiate send commands project profiles
       (Some loggers) s).1
    = (run invoke (dbtRunnerParsons__init__ commands project profiles) s).1
    /\ invoked (run_dbt_commands invoke instantiate send commands project
                  profiles (Some loggers) s).2
       = invoked (run invoke
                    (dbtRunnerParsons__init__ commands project profiles) s).2
    /\ warned (run_dbt_commands invoke instantiate send commands project
                 profiles (Some loggers) s).2
       = warned (run invoke
                   (dbtRunnerParsons__init__ commands project profiles) s).2
    /\ run_dbt_commands invoke instantiate send commands project profiles
         None s
       = run invoke (dbtRunnerParsons__init__ commands project profiles) s.
Proof.
  intros commands project profiles loggers s Hall.
  unfold run_dbt_commands, mbind at 1 2 3 4, Exec_bind at 1 2 3 4.
  destruct (run invoke _ s) as [[rs|e] s1]; [|done].
  split_and!; [| | |reflexivity];
    (destruct (truthy loggers); [|reflexivity];
     destruct (dispatch_all_quiet loggers rs s1 Hall) as [w ->];
     reflexivity).
Qed.

End LoggerFacts.

Lemma run_dbt_commands_batch_raises_witness :
  @run _ logging_invoke Truthy_by_len
    (dbtRunnerParsons__init__ (inl "dbt run") (mkPath "/srv/project") None)
    (start ([answer_exception], []))
  = (Raise DbtInternalException_profile,
     mkExecState ([], []) [["run"; "--project-dir"; "/srv/project"]] [])
  /\ @run_dbt_commands _ _ _ logging_invoke Truthy_by_len
       logging_instantiate logging_send
       (inl "dbt run") (mkPath "/srv/project") None
       (Some [LoggerClass "python"]) (start ([answer_exception], []))
     = (Raise DbtInternalException_profile,
        mkExecState ([], []) [["run"; "--project-dir"; "/srv/project"]] []).
Proof.
  split; [reflexivity|].
  exact (@run_dbt_commands_batch_raises _ _ _ logging_invoke Truthy_by_len
           logging_instantiate logging_send
           (inl "dbt run") (mkPath "/srv/project") None
           (Some [LoggerClass "python"]) (start ([answer_exception], []))
           (mkExecState ([], [])
              [["run"; "--project-dir"; "/srv/project"]] [])
           DbtInternalException_profile eq_refl).
Defined.

Lemma run_dbt_commands_logger_raises_witness :
  @run_dbt_commands _ _ _ logging_invoke Truthy_by_len
    logging_instantiate logging_send
    (inl "dbt run") (mkPath "/srv/project") None
    (Some [LoggerInstance "python"; LoggerClass "broken";
           LoggerInstance "slack"])
    (start ([answer_outcome], []))
  = (Raise logger_failed,
     mkExecState ([], ["python"])
       [["run"; "--project-dir"; "/srv/project"]] []).
Proof.
  exact (@run_dbt_commands_logger_raises _ _ _ logging_invoke Truthy_by_len
           logging_instantiate logging_send
           (inl "dbt run") (mkPath "/srv/project") None
           [LoggerInstance "python"] [LoggerInstance "slack"]
           (LoggerClass "broken")
           (start ([answer_outcome], []))
           (mkExecState ([], [])
              [["run"; "--project-dir"; "/srv/project"]] [])
           (mkExecState ([], ["python"])
              [["run"; "--project-dir"; "/srv/project"]] [])
           (mkExecState ([], ["python"])
              [["run"; "--project-dir"; "/srv/project"]] [])
           [mkManifest "run" (run_execution_result_factory nodes_success_fail)]
           [mkManifest "run" (run_execution_result_factory nodes_success_fail)]
           logger_failed eq_refl eq_refl eq_refl).
Defined.

Lemma run_dbt_commands_quiet_loggers_witness :
  Forall (quiet logging_instantiate logging_send)
    [LoggerClass "python"; LoggerInstance "slack"]
  /\ @run_dbt_commands _ _ _ logging_invoke Truthy_by_len
       logging_instantiate logging_send
       (inr ["dbt run"; "test"]) (mkPath "/srv/project") None
       (Some [LoggerClass "python"; LoggerInstance "slack"])
       (start ([answer_outcome; answer_outcome], []))
     = (Ok [mkManifest "run"
              (run_execution_result_factory nodes_success_fail);
            mkManifest "test"
              (run_execution_result_factory nodes_success_fail)],
        mkExecState ([], ["python"; "slack"])
          [["run"; "--project-dir"; "/srv/project"];
           ["test"; "--project-dir"; "/srv/project"]] [])
  /\ (@run_dbt_commands _ _ _ logging_invoke Truthy_by_len
        logging_instantiate logging_send
        (inr ["dbt run"; "test"]) (mkPath "/srv/project") None
        (Some [LoggerClass "python"; LoggerInstance "slack"])
        (start ([answer_outcome; answer_outcome], []))).1
     = (@run _ logging_invoke Truthy_by_len
          (dbtRunnerParsons__init__ (inr ["dbt run"; "test"])
             (mkPath "/srv/project") None)
          (start ([answer_outcome; answer_outcome], []))).1.
Proof.
  assert (Hall : Forall (quiet logging_instantiate logging_send)
                   [LoggerClass "python"; LoggerInstance "slack"]).
  { constructor; [|constructor; [|constructor]].
    - intros w. exists "python". split; [reflexivity|]. intros rs w'.
      reflexivity.
    - intros rs w. reflexivity. }
  split; [exact Hall|]. split; [reflexivity|].
  exact (proj1 (@run_dbt_commands_quiet_loggers _ _ _ logging_invoke
                  Truthy_by_len logging_instantiate logging_send
                  (inr ["dbt run"; "test"]) (mkPath "/srv/project") None
                  [LoggerClass "python"; LoggerInstance "slack"]
                  (start ([answer_outcome; answer_outcome], [])) Hall)).
Defined.

(** ** More on the wrapper *)

Lemma filter_map_status (rs : list BaseResult) k :
  length (filter (fun x => x = k) (map status rs))
  = length (filter (fun r => status r = k) rs).
Proof.
  induction rs as [|r rs IH]; [reflexivity|].
  simpl map. rewrite !filter_cons.
  destruct (decide (status r = k)); simpl; by rewrite IH.
Qed.

Lemma Counter_lookup_foldl (l : list NodeStatus) (c : gmap NodeStatus nat) k :
  foldl (fun c k => <[k := S (default 0 (c !! k))]> c) c l !! k = None
  <-> c !! k = None /\ k ∉ l.
Proof.
  revert c. induction l as [|x xs IH]; intros c; simpl.
  - split; [intros ?; split; [done | apply not_elem_of_nil] | by intros [? _]].
  - rewrite IH, lookup_insert_None, not_elem_of_cons. intuition congruence.
Qed.

Lemma Counter_lookup_None (l : list NodeStatus) k :
  Counter l !! k = None <-> k ∉ l.
Proof.
  unfold Counter. rewrite Counter_lookup_foldl, lookup_empty. tauto.
Qed.

Lemma status_partition (rs : list BaseResult) :
  length (filter (fun r => status r = Success) rs)
  + length (filter (fun r => status r = Error) rs)
  + length (filter (fun r => status r = Fail) rs)
  + length (filter (fun r => status r = Skipped) rs)
  + length (filter (fun r => status r = Warn) rs)
  + length (filter (fun r => status r = Pass) rs)
  = length rs.
Proof.
  induction rs as [|r rs IH]; [reflexivity|].
  rewrite !filter_cons. destruct (status r); simpl; lia.
Qed.

Lemma filter_and_length_le {A} (P Q : A -> Prop)
    `{forall x, Decision (P x)} `{forall x, Decision (Q x)} (l : list A) :
  length (filter (fun x => P x /\ Q x) l) <= length (filter Q l).
Proof.
  induction l as [|x xs IH]; [reflexivity|].
  rewrite !filter_cons.
  destruct (decide (P x /\ Q x)) as [[_ HQ]|Hn], (decide (Q x)); simpl;
    try lia; done.
Qed.

Lemma filter_and_Forall {A} (P Q : A -> Prop)
    `{forall x, Decision (P x)} `{forall x, Decision (Q x)} (l : list A) :
  Forall P l -> filter (fun x => P x /\ Q x) l = filter Q l.
Proof.
  induction 1 as [|x xs HP _ IH]; [reflexivity|].
  rewrite !filter_cons, IH.
  destruct (decide (P x /\ Q x)), (decide (Q x)); tauto.
Qed.

Lemma non_empty_filter_true {A} (P : A -> Prop) `{forall x, Decision (P x)}
    (l : list A) :
  non_empty (filter P l) = true <-> exists x, x ∈ l /\ P x.
Proof.
  split.
  - destruct (filter P l) as [|x xs] eqn:E; [discriminate|]. intros _.
    assert (Hx : x ∈ filter P l) by (rewrite E; left).
    apply list_elem_of_filter in Hx as [? ?]. eauto.
  - intros (x & Hx & HP).
    assert (Hin : x ∈ filter P l) by (apply list_elem_of_filter; done).
    destruct (filter P l); [by apply elem_of_nil in Hin | reflexivity].
Qed.

Lemma Counter_status_zero (rs : list BaseResult) k :
  (Counter_get (Counter (map status rs)) k =? 0)%nat = true
  <-> forall r, r ∈ rs -> status r <> k.
Proof.
  rewrite Counter_get_count, filter_map_status, Nat.eqb_eq. split.
  - intros Hlen r Hr Hk.
    assert (Hin : r ∈ filter (fun r => status r = k) rs)
      by (apply list_elem_of_filter; done).
    destruct (filter (fun r => status r = k) rs);
      [by apply elem_of_nil in Hin | discriminate].
  - intros Hnone.
    destruct (filter (fun r => status r = k) rs) as [|r l] eqn:E;
      [reflexivity|].
    assert (Hin : r ∈ filter (fun r => status r = k) rs)
      by (rewrite E; left).
    apply list_elem_of_filter in Hin as [Hk Hr]. by destruct (Hnone r Hr).
Qed.

Lemma total_omap_default (f : BaseResult -> option Qc) (rs : list BaseResult) :
  total (map (fun r => default (Q2Qc 0) (f r)) rs) = total (omap f rs).
Proof.
  induction rs as [|r rs IH]; [reflexivity|]. simpl.
  destruct (f r); simpl; rewrite IH; [reflexivity | apply Qcplus_0_l].
Qed.

Section ManifestMore.

Context `{Str Node} `{Str (gmap string Qc)}.

(** The summary counts every result, node outcome or not, under its
    status: the count of a status is the number of results that have it,
    a status has no entry exactly when no result has it, and the counts
    add up to the number of results. *)
Theorem summary_counts :
  forall (self : Manifest) (rs : list BaseResult),
    Manifest_results self = Ok rs ->
    exists c,
      summary self = Ok c
      /\ (forall k, Counter_get c k
                    = length (filter (fun r => status r = k) rs))
      /\ (forall k, c !! k = None <-> forall r, r ∈ rs -> status r <> k)
      /\ Counter_get c Success + Counter_get c Error + Counter_get c Fail
         + Counter_get c Skipped + Counter_get c Warn + Counter_get c Pass
         = length rs.
Proof.
  intros self rs Hrs. exists (Counter (map status rs)).
  split; [by apply summary_eq|].
  assert (Hcount : forall k, Counter_get (Counter (map status rs)) k
                             = length (filter (fun r => status r = k) rs))
    by (intros k; by rewrite Counter_get_count, filter_map_status).
  split; [exact Hcount|]. split.
  - intros k. rewrite Counter_lookup_None, list_elem_of_fmap. split.
    + intros Hno r Hr Hk. apply Hno. eauto.
    + intros Hno (r & -> & Hr). by apply (Hno r).
  - rewrite !Hcount. apply status_partition.
Qed.

(** A view never holds more results than the summary counts for its
    status; when every result is a node outcome the errors, the fails and
    the warnings hold exactly as many. *)
Theorem views_within_summary :
  forall (self : Manifest) (rs : list BaseResult),
    Manifest_results self = Ok rs ->
    exists es fs ws ss c,
      errors self = Ok es /\ fails self = Ok fs /\ warnings self = Ok ws
      /\ skips self = Ok ss /\ summary self = Ok c
      /\ length es <= Counter_get c Error
      /\ length fs <= Counter_get c Fail
      /\ length ws <= Counter_get c Warn
      /\ length ss <= Counter_get c Skipped
      /\ (Forall (fun r => is_NodeResult r = true) rs ->
          length es = Counter_get c Error
          /\ length fs = Counter_get c Fail
          /\ length ws = Counter_get c Warn).
Proof.
  intros self rs Hrs. do 5 eexists.
  split; [by apply errors_eq|]. split; [by apply fails_eq|].
  split; [by apply warnings_eq|]. split; [by apply skips_eq|].
  split; [by apply summary_eq|].
  rewrite !Counter_get_count, !filter_map_status.
  split; [apply filter_and_length_le|]. split; [apply filter_and_length_le|].
  split; [apply filter_and_length_le|]. split.
  - etrans; [apply filter_and_length_le|].
    apply (filter_and_length_le (fun r => is_NodeResult r = true)).
  - intros Hall. by rewrite !(filter_and_Forall _ _ _ Hall).
Qed.

Lemma overall_status_char self rs :
  Manifest_results self = Ok rs ->
  exists st,
    overall_status self = Ok st
    /\ (st = Error
        <-> exists r, r ∈ rs /\ is_NodeResult r = true
                      /\ (status r = Error \/ status r = Fail))
    /\ (st = Warn
        <-> (forall r, r ∈ rs -> is_NodeResult r = true ->
                       status r <> Error /\ status r <> Fail)
            /\ exists r, r ∈ rs /\ is_NodeResult r = true /\ status r = Warn)
    /\ (st = Skipped
        <-> (forall r, r ∈ rs -> is_NodeResult r = true ->
                       status r <> Error /\ status r <> Fail
                       /\ status r <> Warn)
            /\ (exists r, r ∈ rs /\ is_NodeResult r = true
                          /\ status r = Skipped
                          /\ resource_type (node r) = Some Model)
            /\ forall r, r ∈ rs -> status r <> Success /\ status r <> Pass)
    /\ (st = Error \/ st = Warn \/ st = Skipped \/ st = Success).
Proof.
  intros Hrs. rewrite (overall_status_eq _ _ Hrs). eexists.
  split; [reflexivity|]. unfold status_ladder.
  pose proof (non_empty_filter_true
                (fun r => is_NodeResult r = true /\ status r = Error) rs)
    as He.
  pose proof (non_empty_filter_true
                (fun r => is_NodeResult r = true /\ status r = Fail) rs)
    as Hf.
  pose proof (non_empty_filter_true
                (fun r => is_NodeResult r = true /\ status r = Warn) rs)
    as Hw.
  pose proof (non_empty_filter_true
                (fun r => resource_type (node r) = Some Model
                          /\ is_NodeResult r = true /\ status r = Skipped) rs)
    as Hs.
  pose proof (Counter_status_zero rs Success) as Hcs.
  pose proof (Counter_status_zero rs Pass) as Hcp.
  destruct (non_empty (filter (fun r => _ /\ status r = Error) rs)).
  { destruct (proj1 He eq_refl) as (r & Hr & Hn & Hst). simpl.
    split; [split; [intros _; exists r; eauto | done]|].
    split; [split; [done | intros [Hno _]; by destruct (Hno r Hr Hn)]|].
    split; [split; [done | intros [Hno _]; by destruct (Hno r Hr Hn)]|].
    by left. }
  destruct (non_empty (filter (fun r => _ /\ status r = Fail) rs)).
  { destruct (proj1 Hf eq_refl) as (r & Hr & Hn & Hst). simpl.
    split; [split; [intros _; exists r; eauto | done]|].
    split; [split; [done
                   | intros [Hno _]; by destruct (Hno r Hr Hn) as [_ ?]]|].
    split; [split; [done
                   | intros [Hno _]; by destruct (Hno r Hr Hn) as (_ & ? & _)]|].
    by left. }
  simpl.
  assert (Hne : forall r, r ∈ rs -> is_NodeResult r = true ->
                          status r <> Error /\ status r <> Fail).
  { intros r Hr Hn. split; intros Hst.
    - assert (false = true) by (apply He; eauto). done.
    - assert (false = true) by (apply Hf; eauto). done. }
  assert (Hnot : ~ exists r, r ∈ rs /\ is_NodeResult r = true
                             /\ (status r = Error \/ status r = Fail)).
  { intros (r & Hr & Hn & Hst). destruct (Hne r Hr Hn). tauto. }
  destruct (non_empty (filter (fun r => _ /\ status r = Warn) rs)).
  { destruct (proj1 Hw eq_refl) as (r & Hr & Hn & Hst).
    split; [split; [done | by intros ?]|].
    split; [split; [intros _; split; [exact Hne | exists r; eauto] | done]|].
    split; [split; [done
                   | intros [Hno _];
                     by destruct (Hno r Hr Hn) as (_ & _ & ?)]|].
    right. by left. }
  assert (Hnw : forall r, r ∈ rs -> is_NodeResult r = true ->
                          status r <> Warn).
  { intros r Hr Hn Hst. assert (false = true) by (apply Hw; eauto). done. }
  destruct (non_empty (filter _ rs)); simpl.
  - destruct (proj1 Hs eq_refl) as (r & Hr & Hty & Hn & Hst).
    destruct (Counter_get (Counter (map status rs)) Success =? 0)%nat;
      simpl.
    + destruct (Counter_get (Counter (map status rs)) Pass =? 0)%nat.
      * split; [split; [done | by intros ?]|].
        split; [split; [done | intros [_ (r' & Hr' & Hn' & ?)];
                               by destruct (Hnw r' Hr' Hn')]|].
        split; [|right; right; by left].
        split; [|done]. intros _.
        split; [intros r' Hr' Hn'; destruct (Hne r' Hr' Hn');
                split_and!; [done..|by apply Hnw]|].
        split; [exists r; eauto|].
        intros r' Hr'. split;
          [by apply (proj1 Hcs eq_refl) | by apply (proj1 Hcp eq_refl)].
      * split; [split; [done | by intros ?]|].
        split; [split; [done | intros [_ (r' & Hr' & Hn' & ?)];
                               by destruct (Hnw r' Hr' Hn')]|].
        split; [|by do 3 right].
        split; [done|]. intros (_ & _ & Hall).
        assert (false = true); [|done].
        apply Hcp. intros r' Hr'. by destruct (Hall r' Hr').
    + split; [split; [done | by intros ?]|].
      split; [split; [done | intros [_ (r' & Hr' & Hn' & ?)];
                             by destruct (Hnw r' Hr' Hn')]|].
      split; [|by do 3 right].
      split; [done|]. intros (_ & _ & Hall).
      assert (false = true); [|done].
      apply Hcs. intros r' Hr'. by destruct (Hall r' Hr').
  - split; [split; [done | by intros ?]|].
    split; [split; [done | intros [_ (r' & Hr' & Hn' & ?)];
                           by destruct (Hnw r' Hr' Hn')]|].
    split; [|by do 3 right].
    split; [done|]. intros (_ & (r & Hr & Hn & Hst & Hty) & _).
    assert (false = true); [|done]. apply Hs. exists r. eauto.
Qed.

(** The overall status read off the results themselves.  It is Error
    exactly when some node outcome has status Error or Fail; Warn exactly
    when none has and some node outcome has status Warn; Skipped exactly
    when no node outcome has status Error, Fail or Warn, some node outcome
    is a skipped model, and no result at all, node outcome or not, has
    status Success or Pass; and Success in every other case: never Fail,
    never Pass. *)
Theorem overall_status_by_results :
  forall (self : Manifest) (rs : list BaseResult),
    Manifest_results self = Ok rs ->
    exists st,
      overall_status self = Ok st
      /\ (st = Error
          <-> exists r, r ∈ rs /\ is_NodeResult r = true
                        /\ (status r = Error \/ status r = Fail))
      /\ (st = Warn
          <-> (forall r, r ∈ rs -> is_NodeResult r = true ->
                         status r <> Error /\ status r <> Fail)
              /\ exists r, r ∈ rs /\ is_NodeResult r = true
                           /\ status r = Warn)
      /\ (st = Skipped
          <-> (forall r, r ∈ rs -> is_NodeResult r = true ->
                         status r <> Error /\ status r <> Fail
                         /\ status r <> Warn)
              /\ (exists r, r ∈ rs /\ is_NodeResult r = true
                            /\ status r = Skipped
                            /\ resource_type (node r) = Some Model)
              /\ forall r, r ∈ rs -> status r <> Success /\ status r <> Pass)
      /\ (st = Error \/ st = Warn \/ st = Skipped \/ st = Success).
Proof. apply overall_status_char. Qed.

(** The overall status depends on which results there are only: two
    wrappers whose results have the same members, in whatever order and
    however often, have the same overall status. *)
Theorem overall_status_same_members :
  forall (self self' : Manifest) (rs rs' : list BaseResult),
    Manifest_results self = Ok rs ->
    Manifest_results self' = Ok rs' ->
    (forall r, r ∈ rs <-> r ∈ rs') ->
    overall_status self = overall_status self'.
Proof.
  intros self self' rs rs' Hrs Hrs' Hmem.
  destruct (overall_status_char _ _ Hrs)
    as (st & -> & HE & HW & HS & Hrange).
  destruct (overall_status_char _ _ Hrs')
    as (st' & -> & HE' & HW' & HS' & Hrange').
  f_equal.
  assert (Hto : forall r, r ∈ rs' -> r ∈ rs) by (intros r; apply Hmem).
  assert (Hfrom : forall r, r ∈ rs -> r ∈ rs') by (intros r; apply Hmem).
  assert (HEE : st = Error <-> st' = Error).
  { rewrite HE, HE'. split; intros (r & Hr & ?); exists r; eauto. }
  assert (HWW : st = Warn <-> st' = Warn).
  { rewrite HW, HW'.
    split; intros [Hno (r & Hr & ?)]; (split; [|exists r]); eauto. }
  assert (HSS : st = Skipped <-> st' = Skipped).
  { rewrite HS, HS'.
    split; intros (Hno & (r & Hr & ?) & Hall);
      (split_and!; [|exists r|]); eauto. }
  destruct Hrange as [->|[->|[->| ->]]].
  - symmetry. by apply HEE.
  - symmetry. by apply HWW.
  - symmetry. by apply HSS.
  - destruct Hrange' as [E|[E|[E|E]]]; [| | |by rewrite E].
    + by apply HEE in E.
    + by apply HWW in E.
    + by apply HSS in E.
Qed.

(** Filtering raises exactly when some node outcome lacks an attribute
    that a constraint names while it meets every constraint before that
    one; what it raises is an AttributeError.  A constraint that fails
    ends the evaluation for its result, so the constraints after it are
    not looked up, and a result that is not a node outcome is never
    looked into. *)
Theorem filter_results_raises_iff :
  forall (self : Manifest) (rs : list BaseResult)
         (kwargs : list (string * string)),
    Manifest_results self = Ok rs ->
    ((exists e, filter_results self kwargs = Raise e)
     <-> exists r pre key value post,
           r ∈ rs /\ is_NodeResult r = true
           /\ kwargs = (pre ++ (key, value) :: post)%list
           /\ satisfies r pre
           /\ BaseResult_getattr r key = None)
    /\ (forall e, filter_results self kwargs = Raise e ->
                  exc_class e = "AttributeError").
Proof.
  intros self rs kwargs Hrs. split.
  - by apply filter_results_raise_lacking.
  - intros e He. destruct (filter_results_raise_class _ _ _ He) as [?|Hr];
      [done | congruence].
Qed.

(** Constraints compose: when filtering by two lists of constraints, one
    after the other, returns, filtering by the first list returns too, and
    what is kept is what meets the second list among what the first list
    keeps.  Without constraints filtering gives the node outcomes. *)
Theorem filter_results_app :
  forall (self : Manifest) (rs l12 : list BaseResult)
         (kw1 kw2 : list (string * string)),
    Manifest_results self = Ok rs ->
    filter_results self (kw1 ++ kw2) = Ok l12 ->
    filter_results self []
    = Ok (filter (fun r => is_NodeResult r = true) rs)
    /\ exists l1,
         filter_results self kw1 = Ok l1
         /\ l12 = filter (fun r => satisfies r kw2) l1.
Proof.
  intros self rs l12 kw1 kw2 Hrs H12. split.
  - destruct (filter_raising_total
                (fun r => if is_NodeResult r then all_constraints r []
                          else Ok false) rs) as [l Hl].
    { intros r _. destruct (is_NodeResult r); simpl; eauto. }
    assert (Hrun : filter_results self [] = Ok l)
      by (unfold filter_results; by rewrite Hrs).
    rewrite Hrun. f_equal. rewrite (filter_results_sound _ _ _ _ Hrs Hrun).
    apply list_filter_iff. intros r. unfold satisfies.
    split; [by intros [? _] | intros ?; split; [done | constructor]].
  - destruct (filter_raising_total
                (fun r => if is_NodeResult r then all_constraints r kw1
                          else Ok false) rs) as [l1 Hl1].
    { intros r Hr. destruct (is_NodeResult r) eqn:Hn; [|eauto].
      unfold filter_results in H12. rewrite Hrs in H12. simpl in H12.
      destruct (filter_raising_Ok_all _ _ _ H12 r Hr) as [b Hb].
      rewrite Hn, all_constraints_app in Hb.
      destruct (all_constraints r kw1); [eauto | discriminate]. }
    assert (Hrun : filter_results self kw1 = Ok l1)
      by (unfold filter_results; by rewrite Hrs).
    exists l1. split; [exact Hrun|].
    rewrite (filter_results_sound _ _ _ _ Hrs Hrun),
      (filter_results_sound _ _ _ _ Hrs H12), list_filter_filter.
    apply list_filter_iff. intros r. rewrite satisfies_app. tauto.
Qed.

(** The totals add what is reported: the slot hours are the sum of the
    [slot_ms] entries of the results that have one, divided by 3600000,
    the gigabytes the sum of the [bytes_processed] entries of the results
    that have one, divided by 10^9; a result without the entry counts as
    0 and adds nothing. *)
Theorem totals_of_reported :
  forall (self : Manifest) (rs : list BaseResult),
    Manifest_results self = Ok rs ->
    total_slot_hours self
    = Ok (total (map slot_ms rs) / Q2Qc 3600000)%Qc
    /\ total_slot_hours self
       = Ok (total (omap (fun r => adapter_response r !! "slot_ms") rs)
             / Q2Qc 3600000)%Qc
    /\ total_gb_processed self
       = Ok (total (omap (fun r => adapter_response r !! "bytes_processed")
                      rs)
             / Q2Qc 1000000000)%Qc.
Proof.
  intros self rs Hrs. unfold total_slot_hours, total_gb_processed.
  rewrite Hrs. simpl. rewrite !py_sum_total.
  split; [reflexivity|].
  by rewrite !total_omap_default.
Qed.

End ManifestMore.

(** What is given to the constructor is what the wrapper gives back: the
    command under [command], and under [run_execution_result] and the
    deprecated attribute [dbt_manifest] the outcome that was passed, the
    one under the deprecated keyword only when no other was; reading the
    deprecated attribute emits one deprecation warning. *)
Theorem Manifest_reads_back :
  forall (c : string) (primary deprecated : option RunExecutionResult)
         (m : Manifest),
    (Manifest__init__ c primary deprecated).2 = Ok m ->
    Some (run_execution_result m)
    = match primary with Some r => Some r | None => deprecated end
    /\ Manifest_dbt_manifest m
       = ([DeprecationWarning_dbt_manifest_attribute], run_execution_result m)
    /\ Manifest_getattr m "run_execution_result"
       = Ok (VOutcome (run_execution_result m))
    /\ Manifest_getattr m "command" = Ok (VAtom (AStr c)).
Proof.
  intros c primary deprecated m.
  destruct primary as [r|], deprecated as [d|]; simpl;
    intros [= <-]; by repeat split.
Qed.

(** ** The wrapper on the fixtures, continued *)

Lemma summary_counts_witness :
  Manifest_results (manifest_of nodes_skips) = Ok nodes_skips
  /\ exists c,
       summary (manifest_of nodes_skips) = Ok c
       /\ (forall k, Counter_get c k
                     = length (filter (fun r => status r = k) nodes_skips))
       /\ (forall k, c !! k = None
                     <-> forall r, r ∈ nodes_skips -> status r <> k)
       /\ Counter_get c Success + Counter_get c Error + Counter_get c Fail
          + Counter_get c Skipped + Counter_get c Warn + Counter_get c Pass
          = length nodes_skips.
Proof.
  split; [reflexivity|].
  exact (summary_counts (manifest_of nodes_skips) nodes_skips eq_refl).
Defined.

Lemma views_within_summary_witness :
  Manifest_results (manifest_of nodes_skips) = Ok nodes_skips
  /\ exists es fs ws ss c,
       @errors sample_Str_Node sample_Str_dict (manifest_of nodes_skips)
       = Ok es
       /\ @fails sample_Str_Node sample_Str_dict (manifest_of nodes_skips)
          = Ok fs
       /\ @warnings sample_Str_Node sample_Str_dict (manifest_of nodes_skips)
          = Ok ws
       /\ @skips sample_Str_Node sample_Str_dict (manifest_of nodes_skips)
          = Ok ss
       /\ summary (manifest_of nodes_skips) = Ok c
       /\ length es <= Counter_get c Error
       /\ length fs <= Counter_get c Fail
       /\ length ws <= Counter_get c Warn
       /\ length ss <= Counter_get c Skipped
       /\ (Forall (fun r => is_NodeResult r = true) nodes_skips ->
           length es = Counter_get c Error
           /\ length fs = Counter_get c Fail
           /\ length ws = Counter_get c Warn).
Proof.
  split; [reflexivity|].
  exact (@views_within_summary sample_Str_Node sample_Str_dict
           (manifest_of nodes_skips) nodes_skips eq_refl).
Defined.

Lemma overall_status_by_results_witness :
  Manifest_results (manifest_of nodes_skipped_tests) = Ok nodes_skipped_tests
  /\ exists st,
       @overall_status sample_Str_Node sample_Str_dict
         (manifest_of nodes_skipped_tests) = Ok st
       /\ (st = Error
           <-> exists r, r ∈ nodes_skipped_tests /\ is_NodeResult r = true
                         /\ (status r = Error \/ status r = Fail))
       /\ (st = Warn
           <-> (forall r, r ∈ nodes_skipped_tests -> is_NodeResult r = true ->
                          status r <> Error /\ status r <> Fail)
               /\ exists r, r ∈ nodes_skipped_tests /\ is_NodeResult r = true
                            /\ status r = Warn)
       /\ (st = Skipped
           <-> (forall r, r ∈ nodes_skipped_tests -> is_NodeResult r = true ->
                          status r <> Error /\ status r <> Fail
                          /\ status r <> Warn)
               /\ (exists r, r ∈ nodes_skipped_tests
                             /\ is_NodeResult r = true
                             /\ status r = Skipped
                             /\ resource_type (node r) = Some Model)
               /\ forall r, r ∈ nodes_skipped_tests ->
                            status r <> Success /\ status r <> Pass)
       /\ (st = Error \/ st = Warn \/ st = Skipped \/ st = Success).
Proof.
  split; [reflexivity|].
  exact (@overall_status_by_results sample_Str_Node sample_Str_dict
           (manifest_of nodes_skipped_tests) nodes_skipped_tests eq_refl).
Defined.

Lemma overall_status_same_members_witness :
  (forall r,
      r ∈ [node_with_status Warn; node_with_status Success]
      <-> r ∈ [node_with_status Success; node_with_status Warn;
               node_with_status Success])
  /\ @overall_status sample_Str_Node sample_Str_dict
       (manifest_of [node_with_status Warn; node_with_status Success])
     = @overall_status sample_Str_Node sample_Str_dict
         (manifest_of [node_with_status Success; node_with_status Warn;
                       node_with_status Success]).
Proof.
  assert (Hmem : forall r,
             r ∈ [node_with_status Warn; node_with_status Success]
             <-> r ∈ [node_with_status Success; node_with_status Warn;
                      node_with_status Success]).
  { intros r. rewrite !elem_of_cons. tauto. }
  split; [exact Hmem|].
  exact (@overall_status_same_members sample_Str_Node sample_Str_dict
           (manifest_of [node_with_status Warn; node_with_status Success])
           (manifest_of [node_with_status Success; node_with_status Warn;
                         node_with_status Success])
           [node_with_status Warn; node_with_status Success]
           [node_with_status Success; node_with_status Warn;
            node_with_status Success]
           eq_refl eq_refl Hmem).
Defined.

Lemma filter_results_raises_iff_witness :
  Manifest_results (manifest_of nodes_success_fail) = Ok nodes_success_fail
  /\ ((exists e,
          @filter_results sample_Str_Node sample_Str_dict
            (manifest_of nodes_success_fail)
            [("status", "success"); ("owner", "data")] = Raise e)
      <-> exists r pre key value post,
            r ∈ nodes_success_fail /\ is_NodeResult r = true
            /\ [("status", "success"); ("owner", "data")]
               = (pre ++ (key, value) :: post)%list
            /\ @satisfies sample_Str_Node sample_Str_dict r pre
            /\ BaseResult_getattr r key = None)
  /\ (forall e,
         @filter_results sample_Str_Node sample_Str_dict
           (manifest_of nodes_success_fail)
           [("status", "success"); ("owner", "data")] = Raise e ->
         exc_class e = "AttributeError").
Proof.
  split; [reflexivity|].
  exact (@filter_results_raises_iff sample_Str_Node sample_Str_dict
           (manifest_of nodes_success_fail) nodes_success_fail
           [("status", "success"); ("owner", "data")] eq_refl).
Defined.

Lemma filter_results_app_witness :
  Manifest_results (manifest_of nodes_skips) = Ok nodes_skips
  /\ @filter_results sample_Str_Node sample_Str_dict (manifest_of nodes_skips)
       ([("status", "skipped")] ++ [("thread_id", "thread-1")])%list
     = Ok [dbt_node_factory Skipped "m1" Model (Q2Qc 0);
           dbt_node_factory Skipped "t1" Test (Q2Qc 0)]
  /\ @filter_results sample_Str_Node sample_Str_dict (manifest_of nodes_skips)
       []
     = Ok (filter (fun r => is_NodeResult r = true) nodes_skips)
  /\ exists l1,
       @filter_results sample_Str_Node sample_Str_dict
         (manifest_of nodes_skips) [("status", "skipped")] = Ok l1
       /\ [dbt_node_factory Skipped "m1" Model (Q2Qc 0);
           dbt_node_factory Skipped "t1" Test (Q2Qc 0)]
          = filter (fun r => @satisfies sample_Str_Node sample_Str_dict r
                               [("thread_id", "thread-1")]) l1.
Proof.
  split; [reflexivity|]. split; [reflexivity|].
  exact (@filter_results_app sample_Str_Node sample_Str_dict
           (manifest_of nodes_skips) nodes_skips
           [dbt_node_factory Skipped "m1" Model (Q2Qc 0);
            dbt_node_factory Skipped "t1" Test (Q2Qc 0)]
           [("status", "skipped")] [("thread_id", "thread-1")]
           eq_refl eq_refl).
Defined.

Lemma totals_of_reported_witness :
  Manifest_results
    (manifest_of [node_with_bytes (Q2Qc 1500000000);
                  mkResult true Success (mkNode "seed" None) ∅ ∅])
  = Ok [node_with_bytes (Q2Qc 1500000000);
        mkResult true Success (mkNode "seed" None) ∅ ∅]
  /\ total_slot_hours
       (manifest_of [node_with_bytes (Q2Qc 1500000000);
                     mkResult true Success (mkNode "seed" None) ∅ ∅])
     = Ok (total (omap (fun r => adapter_response r !! "slot_ms")
                    [node_with_bytes (Q2Qc 1500000000);
                     mkResult true Success (mkNode "seed" None) ∅ ∅])
           / Q2Qc 3600000)%Qc.
Proof.
  split; [reflexivity|].
  exact (proj1 (proj2 (totals_of_reported
                         (manifest_of
                            [node_with_bytes (Q2Qc 1500000000);
                             mkResult true Success (mkNode "seed" None) ∅ ∅])
                         [node_with_bytes (Q2Qc 1500000000);
                          mkResult true Success (mkNode "seed" None) ∅ ∅]
                         eq_refl))).
Defined.

Lemma Manifest_reads_back_witness :
  (Manifest__init__ "run" None (Some (run_execution_result_factory []))).2
  = Ok (mkManifest "run" (run_execution_result_factory []))
  /\ Manifest_dbt_manifest (mkManifest "run" (run_execution_result_factory []))
     = ([DeprecationWarning_dbt_manifest_attribute],
        run_execution_result_factory []).
Proof.
  split; [reflexivity|].
  exact (proj1 (proj2 (Manifest_reads_back "run" None
                         (Some (run_execution_result_factory []))
                         (mkManifest "run" (run_execution_result_factory []))
                         eq_refl))).
Defined.
